(** * aiva-vrs: the VRS identifier codec of src/generator.ts

    A shallow embedding of [normalizeChromosome], [generateVrsId],
    [isValidVrsId], [parseVrsId], [getChromosomeFromVrsId],
    [getSqlTableForVariant] and [buildVariantQuery], together with the
    primitives of the JavaScript runtime they call (string methods, the
    regular expression [/^ga4gh:VA:([^:]+):(.+)$/], SHA-512, base64).

    Strings.  A JavaScript string is a sequence of UTF-16 code units.  The
    embedding represents the code units 0..255 (Rocq's [ascii]); on such
    strings every operation below is the runtime's: [toLowerCase] follows
    the Unicode case mapping of the Latin-1 block, the hash is taken over
    the UTF-8 encoding, and the line terminators the [.] of a regular
    expression excludes are LF and CR (U+2028 and U+2029 lie outside the
    represented range). *)

From Stdlib Require Import ZArith Ascii String List Lia DecimalString.
From stdpp Require Import base gmap strings.
Import ListNotations.

Local Open Scope Z_scope.

(** ** JavaScript strings *)

Module JsString.

Definition code (c : ascii) : Z := Z.of_N (N_of_ascii c).
Definition of_code (z : Z) : ascii := ascii_of_N (Z.to_N z).

(** [s.startsWith(p)] *)
Fixpoint startsWith (p s : string) : bool :=
  match p, s with
  | EmptyString, _ => true
  | String a p', String b s' => if Ascii.eqb a b then startsWith p' s' else false
  | String _ _, EmptyString => false
  end.

(** [s.substring(n)] for [0 <= n]: the code units from index [n] on
    (all of them dropped when [n] exceeds the length). *)
Fixpoint substring (n : nat) (s : string) : string :=
  match n, s with
  | O, _ => s
  | S n', String _ s' => substring n' s'
  | S _, EmptyString => EmptyString
  end.

(** [ch.toLowerCase()] on one code unit below 256: A-Z, and the
    capitals U+00C0..U+00DE except the multiplication sign U+00D7,
    move up by 32; every other code unit of the block is unchanged. *)
Definition lowerChar (c : ascii) : ascii :=
  let z := code c in
  if ((65 <=? z) && (z <=? 90)) || ((192 <=? z) && (z <=? 222) && negb (z =? 215))
  then of_code (z + 32) else c.

Fixpoint toLowerCase (s : string) : string :=
  match s with
  | EmptyString => EmptyString
  | String c s' => String (lowerChar c) (toLowerCase s')
  end.

(** Every code unit of [s] satisfies [p]. *)
Fixpoint all (p : ascii -> bool) (s : string) : bool :=
  match s with
  | EmptyString => true
  | String c s' => p c && all p s'
  end.

(** [s.includes(sub)] as a proposition: [sub] occurs in [s]. *)
Definition includes (s sub : string) : Prop :=
  exists pre post, s = pre +:+ sub +:+ post.

(** [s.replace(/c/g, d)] for a one-character pattern. *)
Fixpoint replaceAll (c d : ascii) (s : string) : string :=
  match s with
  | EmptyString => EmptyString
  | String x s' => String (if Ascii.eqb x c then d else x) (replaceAll c d s')
  end.

(** [s.replace(/=+$/, '')]: the leftmost match of [=+$] is the maximal
    run of [=] that reaches the end of the string; it is removed. *)
Fixpoint stripTrailingEquals (s : string) : string :=
  match s with
  | EmptyString => EmptyString
  | String x s' =>
      match stripTrailingEquals s' with
      | EmptyString => if Ascii.eqb x "="%char then EmptyString else String x EmptyString
      | t => String x t
      end
  end.

(** The UTF-8 encoding of a string of code units below 256, as
    [createHash(..).update(data)] feeds it to the hash. *)
Definition utf8Char (c : ascii) : list Z :=
  let z := code c in
  if z <? 128 then [z]
  else [Z.lor 192 (Z.shiftr z 6); Z.lor 128 (Z.land z 63)].

Fixpoint utf8 (s : string) : list Z :=
  match s with
  | EmptyString => []
  | String c s' => utf8Char c ++ utf8 s'
  end.

(** [String(n)] for an integer-valued number: decimal digits, a leading
    minus sign for negatives, no padding. *)
Definition ofInteger (n : Z) : string := NilZero.string_of_int (Z.to_int n).

End JsString.

(** ** Regular expressions

    The combinators below are a backtracking matcher in continuation
    style: each takes the rest of the pattern as a continuation [k] and
    returns the first successful result in the order in which the
    runtime explores alternatives (a greedy [+] tries the longest
    repetition first and gives characters back one at a time). *)

Module Regex.

Section Matcher.
Context {R : Type}.

(** A literal string. *)
Fixpoint lit (p s : string) (k : string -> option R) : option R :=
  match p, s with
  | EmptyString, _ => k s
  | String a p', String b s' => if Ascii.eqb a b then lit p' s' k else None
  | String _ _, EmptyString => None
  end.

(** A capturing group around a greedy [cls+]: [acc] is what the
    group has consumed so far; the continuation receives the capture
    and the remaining input. *)
Fixpoint plusFrom (cls : ascii -> bool) (acc s : string)
         (k : string -> string -> option R) : option R :=
  match s with
  | EmptyString => None
  | String c s' =>
      if cls c then
        let acc' := acc +:+ String c EmptyString in
        match plusFrom cls acc' s' k with
        | Some r => Some r
        | None => k acc' s'
        end
      else None
  end.

Definition plus (cls : ascii -> bool) (s : string)
           (k : string -> string -> option R) : option R :=
  plusFrom cls EmptyString s k.

(** [$] without the multiline flag: the end of the input only. *)
Definition eos (s : string) (r : R) : option R :=
  match s with
  | EmptyString => Some r
  | String _ _ => None
  end.
End Matcher.

(** The class [[^:]]: any code unit but the colon. *)
Definition notColon (c : ascii) : bool := negb (Ascii.eqb c ":"%char).

(** [.] without the dotAll flag: any code unit but a line terminator. *)
Definition dot (c : ascii) : bool :=
  negb (Ascii.eqb c "010"%char || Ascii.eqb c "013"%char).

(** The input does not begin with a character of the class. *)
Definition stops (cls : ascii -> bool) (s : string) : Prop :=
  match s with
  | EmptyString => True
  | String c _ => cls c = false
  end.

End Regex.

(** ** The hash and the encoding of the runtime

    [crypto.createHash('sha512')] is SHA-512 as FIPS 180-4 defines it:
    64-bit words with addition modulo 2^64, messages padded to a multiple
    of 128 bytes, eighty rounds per block. *)

Module Sha512.

Definition wrap (x : Z) : Z := Z.land x (Z.ones 64).
Definition add64 (x y : Z) : Z := wrap (x + y).
Definition rotr (n x : Z) : Z := Z.lor (Z.shiftr x n) (wrap (Z.shiftl x (64 - n))).
Definition shr (n x : Z) : Z := Z.shiftr x n.
Definition not64 (x : Z) : Z := Z.lxor x (Z.ones 64).

Definition Ch (x y z : Z) : Z := Z.lxor (Z.land x y) (Z.land (not64 x) z).
Definition Maj (x y z : Z) : Z :=
  Z.lxor (Z.lxor (Z.land x y) (Z.land x z)) (Z.land y z).
Definition Sigma0 (x : Z) : Z := Z.lxor (Z.lxor (rotr 28 x) (rotr 34 x)) (rotr 39 x).
Definition Sigma1 (x : Z) : Z := Z.lxor (Z.lxor (rotr 14 x) (rotr 18 x)) (rotr 41 x).
Definition sigma0 (x : Z) : Z := Z.lxor (Z.lxor (rotr 1 x) (rotr 8 x)) (shr 7 x).
Definition sigma1 (x : Z) : Z := Z.lxor (Z.lxor (rotr 19 x) (rotr 61 x)) (shr 6 x).

Definition K : list Z := [
  0x428a2f98d728ae22; 0x7137449123ef65cd; 0xb5c0fbcfec4d3b2f; 0xe9b5dba58189dbbc;
  0x3956c25bf348b538; 0x59f111f1b605d019; 0x923f82a4af194f9b; 0xab1c5ed5da6d8118;
  0xd807aa98a3030242; 0x12835b0145706fbe; 0x243185be4ee4b28c; 0x550c7dc3d5ffb4e2;
  0x72be5d74f27b896f; 0x80deb1fe3b1696b1; 0x9bdc06a725c71235; 0xc19bf174cf692694;
  0xe49b69c19ef14ad2; 0xefbe4786384f25e3; 0x0fc19dc68b8cd5b5; 0x240ca1cc77ac9c65;
  0x2de92c6f592b0275; 0x4a7484aa6ea6e483; 0x5cb0a9dcbd41fbd4; 0x76f988da831153b5;
  0x983e5152ee66dfab; 0xa831c66d2db43210; 0xb00327c898fb213f; 0xbf597fc7beef0ee4;
  0xc6e00bf33da88fc2; 0xd5a79147930aa725; 0x06ca6351e003826f; 0x142929670a0e6e70;
  0x27b70a8546d22ffc; 0x2e1b21385c26c926; 0x4d2c6dfc5ac42aed; 0x53380d139d95b3df;
  0x650a73548baf63de; 0x766a0abb3c77b2a8; 0x81c2c92e47edaee6; 0x92722c851482353b;
  0xa2bfe8a14cf10364; 0xa81a664bbc423001; 0xc24b8b70d0f89791; 0xc76c51a30654be30;
  0xd192e819d6ef5218; 0xd69906245565a910; 0xf40e35855771202a; 0x106aa07032bbd1b8;
  0x19a4c116b8d2d0c8; 0x1e376c085141ab53; 0x2748774cdf8eeb99; 0x34b0bcb5e19b48a8;
  0x391c0cb3c5c95a63; 0x4ed8aa4ae3418acb; 0x5b9cca4f7763e373; 0x682e6ff3d6b2b8a3;
  0x748f82ee5defb2fc; 0x78a5636f43172f60; 0x84c87814a1f0ab72; 0x8cc702081a6439ec;
  0x90befffa23631e28; 0xa4506cebde82bde9; 0xbef9a3f7b2c67915; 0xc67178f2e372532b;
  0xca273eceea26619c; 0xd186b8c721c0c207; 0xeada7dd6cde0eb1e; 0xf57d4f7fee6ed178;
  0x06f067aa72176fba; 0x0a637dc5a2c898a6; 0x113f9804bef90dae; 0x1b710b35131c471b;
  0x28db77f523047d84; 0x32caab7b40c72493; 0x3c9ebe0a15c9bebc; 0x431d67c49c100d4c;
  0x4cc5d4becb3e42b6; 0x597f299cfc657e2a; 0x5fcb6fab3ad6faec; 0x6c44198c4a475817 ].

Record state : Type := State {
  ha : Z; hb : Z; hc : Z; hd : Z; he : Z; hf : Z; hg : Z; hh : Z
}.

Definition H0 : state :=
  State 0x6a09e667f3bcc908 0xbb67ae8584caa73b 0x3c6ef372fe94f82b 0xa54ff53a5f1d36f1 0x510e527fade682d1 0x9b05688c2b3e6c1f 0x1f83d9abfb41bd6b 0x5be0cd19137e2179.

(** Big-endian bytes of a number, most significant first. *)
Definition byteAt (k x : Z) : Z := Z.land (Z.shiftr x (8 * k)) 255.
Definition be64 (x : Z) : list Z := map (fun k => byteAt k x) [7; 6; 5; 4; 3; 2; 1; 0].
Definition be128 (x : Z) : list Z :=
  map (fun k => byteAt k x) [15; 14; 13; 12; 11; 10; 9; 8; 7; 6; 5; 4; 3; 2; 1; 0].
Definition ofBytes (bs : list Z) : Z := fold_left (fun acc b => Z.lor (Z.shiftl acc 8) b) bs 0.

(** Padding: the byte 0x80, zero bytes up to 112 modulo 128, and the
    bit length of the message on 16 bytes. *)
Definition pad (msg : list Z) : list Z :=
  let len := Z.of_nat (length msg) in
  msg ++ [128] ++ repeat 0 (Z.to_nat ((111 - len) mod 128)) ++ be128 (8 * len).

Fixpoint chunks (size n : nat) (bs : list Z) : list (list Z) :=
  match n with
  | O => []
  | S n' => firstn size bs :: chunks size n' (skipn size bs)
  end.

(** The message schedule, most recent word first while it is built. *)
Fixpoint extend (n : nat) (w : list Z) : list Z :=
  match n with
  | O => w
  | S n' =>
      let wt := add64 (add64 (add64 (sigma1 (nth 1 w 0)) (nth 6 w 0))
                             (sigma0 (nth 14 w 0))) (nth 15 w 0) in
      extend n' (wt :: w)
  end.

Definition schedule (block : list Z) : list Z :=
  rev (extend 64 (rev (map ofBytes (chunks 8 16 block)))).

Definition round (s : state) (kw : Z * Z) : state :=
  let '(k, w) := kw in
  let t1 := add64 (add64 (add64 (add64 (hh s) (Sigma1 (he s))) (Ch (he s) (hf s) (hg s))) k) w in
  let t2 := add64 (Sigma0 (ha s)) (Maj (ha s) (hb s) (hc s)) in
  State (add64 t1 t2) (ha s) (hb s) (hc s) (add64 (hd s) t1) (he s) (hf s) (hg s).

Definition compress (h : state) (block : list Z) : state :=
  let s := fold_left round (combine K (schedule block)) h in
  State (add64 (ha h) (ha s)) (add64 (hb h) (hb s)) (add64 (hc h) (hc s))
        (add64 (hd h) (hd s)) (add64 (he h) (he s)) (add64 (hf h) (hf s))
        (add64 (hg h) (hg s)) (add64 (hh h) (hh s)).

Definition output (s : state) : list Z :=
  be64 (ha s) ++ be64 (hb s) ++ be64 (hc s) ++ be64 (hd s) ++
  be64 (he s) ++ be64 (hf s) ++ be64 (hg s) ++ be64 (hh s).

(** [createHash('sha512').update(msg).digest()]: the 64-byte digest. *)
Definition digest (msg : list Z) : list Z :=
  let padded := pad msg in
  output (fold_left compress (chunks 128 (length padded / 128) padded) H0).

End Sha512.

(** [buffer.toString('base64')]: three bytes give four characters of the
    standard alphabet; a last group of one or two bytes is padded with
    [=]. *)

Module Base64.

Definition alphabet : string :=
  "ABCDEFGHIJKLMNOPQRSTUVWXYZabcdefghijklmnopqrstuvwxyz0123456789+/".

Definition table (i : Z) : ascii :=
  match String.get (Z.to_nat i) alphabet with
  | Some c => c
  | None => "="%char
  end.

Fixpoint encode (bs : list Z) : string :=
  match bs with
  | [] => EmptyString
  | [a] =>
      String (table (Z.shiftr a 2))
     (String (table (Z.shiftl (Z.land a 3) 4))
     (String "="%char (String "="%char EmptyString)))
  | [a; b] =>
      String (table (Z.shiftr a 2))
     (String (table (Z.lor (Z.shiftl (Z.land a 3) 4) (Z.shiftr b 4)))
     (String (table (Z.shiftl (Z.land b 15) 2))
     (String "="%char EmptyString)))
  | a :: b :: c :: rest =>
      String (table (Z.shiftr a 2))
     (String (table (Z.lor (Z.shiftl (Z.land a 3) 4) (Z.shiftr b 4)))
     (String (table (Z.lor (Z.shiftl (Z.land b 15) 2) (Z.shiftr c 6)))
     (String (table (Z.land c 63)) (encode rest))))
  end.

End Base64.

(** ** src/generator.ts *)

(** Thrown values: [new Error(message)]. *)
Inductive error : Type := Error (message : string).

Inductive result (A : Type) : Type :=
| Ok (a : A)
| Throw (e : error).
Arguments Ok {A} a.
Arguments Throw {A} e.

(** Sequencing: a thrown error propagates to the caller. *)
#[export] Instance result_bind : MBind result := fun A B f r =>
  match r with
  | Ok a => f a
  | Throw e => Throw e
  end.

(** [normalizeChromosome], generator.ts lines 9-21. *)
Definition normalizeChromosome (chrom : string) : string :=
  let chrom := if JsString.startsWith "chr" chrom then JsString.substring 3 chrom else chrom in
  if String.eqb chrom "M" then "MT"
  else if String.eqb chrom "MT" then "MT"
  else if String.eqb chrom "Un" then "UN"
  else chrom.

(** The pattern [/^ga4gh:VA:([^:]+):(.+)$/] applied at the start of the
    input ([^] without the multiline flag); the result is the pair of
    captures (match[1], match[2]). *)
Definition vrsPattern (s : string) : option (string * string) :=
  Regex.lit "ga4gh:VA:" s (fun s1 =>
  Regex.plus Regex.notColon s1 (fun g1 s2 =>
  Regex.lit ":" s2 (fun s3 =>
  Regex.plus Regex.dot s3 (fun g2 s4 =>
  Regex.eos s4 (g1, g2))))).

(** [isValidVrsId], lines 75-83.  The empty string is the only falsy
    string. *)
Definition isValidVrsId (vrsId : string) : bool :=
  if String.eqb vrsId EmptyString then false
  else match vrsPattern vrsId with Some _ => true | None => false end.

Record components : Type := {
  chromosome : string;
  digest : string;
  type : string
}.

(** [parseVrsId], lines 92-111. *)
Definition parseVrsId (vrsId : string) : result components :=
  if negb (isValidVrsId vrsId) then Throw (Error ("Invalid VRS ID: " +:+ vrsId))
  else
    match vrsPattern vrsId with
    | None => Throw (Error ("Failed to parse VRS ID: " +:+ vrsId))
    | Some (m1, m2) => Ok {| chromosome := m1; digest := m2; type := "VA" |}
    end.

(** [getChromosomeFromVrsId], lines 120-123. *)
Definition getChromosomeFromVrsId (vrsId : string) : result string :=
  c ← parseVrsId vrsId; Ok (chromosome c).

(** [getSqlTableForVariant], lines 132-135. *)
Definition getSqlTableForVariant (vrsId : string) : result string :=
  chrom ← getChromosomeFromVrsId vrsId;
  Ok ("variants_chr" +:+ JsString.toLowerCase chrom).

Record variantQuery : Type := {
  query : string;
  params : gmap string string
}.

Definition nl : string := String "010"%char EmptyString.

(** [buildVariantQuery], lines 144-164.  The template literal starts
    with a line break and indents each line by four spaces. *)
Definition buildVariantQuery (vrsId : string) : result variantQuery :=
  tableName ← getSqlTableForVariant vrsId;
  chrom ← getChromosomeFromVrsId vrsId;
  let query :=
    nl +:+ "    SELECT *" +:+ nl +:+
    "    FROM public." +:+ tableName +:+ nl +:+
    "    WHERE id = @vrsId" +:+ nl +:+
    "    AND chromosome = @chromosome" +:+ nl +:+ "  " in
  let params : gmap string string :=
    <["chromosome" := chrom]> (<["vrsId" := vrsId]> ∅) in
  Ok {| query := query; params := params |}.

(** The [pos: number | string] argument.  [PosNumber n] is an
    integer-valued number (exactly representable, of magnitude below
    10^21, where the runtime prints plain decimal digits);
    [PosString s] is a position supplied as text. *)
Inductive position : Type :=
| PosNumber (n : Z)
| PosString (s : string).

(** What [${pos}] interpolates. *)
Definition positionText (pos : position) : string :=
  match pos with
  | PosNumber n => JsString.ofInteger n
  | PosString s => s
  end.

(** Line 50: the data string that is hashed. *)
Definition payload (normalizedChrom : string) (pos : position) (ref alt : string) : string :=
  normalizedChrom +:+ ":" +:+ positionText pos +:+ ":" +:+ ref +:+ ":" +:+ alt.

(** Line 46: what follows [ga4gh:VA:SPECIAL:] in the wildcard form. *)
Definition specialLabel (normalizedChrom : string) (pos : position) (ref alt : string) : string :=
  normalizedChrom +:+ "-" +:+ positionText pos +:+ "-" +:+ ref +:+ "-" +:+ alt.

(** Lines 52-60: hash, truncate to 24 bytes, base64, make URL-safe. *)
Definition urlSafeDigest (data : string) : string :=
  let hash := Sha512.digest (JsString.utf8 data) in
  let truncatedHash := firstn 24 hash in
  let b64Digest := Base64.encode truncatedHash in
  JsString.stripTrailingEquals
    (JsString.replaceAll "/"%char "_"%char
       (JsString.replaceAll "+"%char "-"%char b64Digest)).

(** [generateVrsId], lines 33-67.  No operation of the [try] block
    throws on arguments of the declared types, so the [catch] clause is
    never entered and the function returns a string. *)
Definition generateVrsId (chrom : string) (pos : position) (ref alt : string)
           (assembly : string) : string :=
  let normalizedChrom := normalizeChromosome chrom in
  if String.eqb alt "*" || String.eqb ref "*" then
    "ga4gh:VA:SPECIAL:" +:+ specialLabel normalizedChrom pos ref alt
  else
    let data := payload normalizedChrom pos ref alt in
    let b64Digest := urlSafeDigest data in
    "ga4gh:VA:" +:+ normalizedChrom +:+ ":" +:+ b64Digest.

(** The default value of the [assembly] parameter. *)
Definition defaultAssembly : string := "GRCh38".


(** [generateVrsId(chrom, pos, ref, alt)] with the fifth argument left out. *)
Definition generate (chrom : string) (pos : position) (ref alt : string) : string :=
  generateVrsId chrom pos ref alt defaultAssembly.

(** The character set [[A-Za-z0-9_-]] of a URL-safe digest. *)
Definition isUrlSafe (c : ascii) : bool :=
  let z := JsString.code c in
  ((65 <=? z) && (z <=? 90)) || ((97 <=? z) && (z <=? 122)) ||
  ((48 <=? z) && (z <=? 57)) || (z =? 95) || (z =? 45).

(** The message of the error [parseVrsId] throws on a rejected input. *)
Definition invalidIdentifierError (vrsId : string) : error :=
  Error ("Invalid VRS ID: " +:+ vrsId).

(** A byte value. *)
Definition isByte (b : Z) : Prop := 0 <= b < 256.

(** The standard base64 alphabet [[A-Za-z0-9+/]]. *)
Definition isBase64 (c : ascii) : bool :=
  let z := JsString.code c in
  ((65 <=? z) && (z <=? 90)) || ((97 <=? z) && (z <=? 122)) ||
  ((48 <=? z) && (z <=? 57)) || (z =? 43) || (z =? 47).

(** The round trip of an identifier: it is accepted, and parsing it
    gives back the canonical chromosome it was built from. *)
Definition roundTrips (c : string) (p : position) (r a assembly : string) : Prop :=
  let id := generateVrsId c p r a assembly in
  isValidVrsId id = true /\
  exists comp, parseVrsId id = Ok comp /\ chromosome comp = normalizeChromosome c.

(** ** The database example (MockDatabase, processVariants,
    queryVariantByVrsId)

    [tables] is the object [this.tables]: table names in the order in
    which [Object.keys] lists them, each with its array of records.  The
    names the example uses all start with [variants_chr]; for such names
    (no array index, no inherited property of an object) the key order
    is the insertion order and [!this.tables[name]] tests whether the
    table was created.  Console output is not modelled. *)

Module MockDatabase.

Section Tables.
Context {A : Type}.

Definition tables : Type := list (string * list A).

(** [this.tables[tableName]] *)
Fixpoint lookup (tableName : string) (db : tables) : option (list A) :=
  match db with
  | [] => None
  | (t, rows) :: db' => if String.eqb t tableName then Some rows else lookup tableName db'
  end.

(** [ensureTable]: a missing table is created empty, after the others. *)
Definition ensureTable (tableName : string) (db : tables) : tables :=
  match lookup tableName db with
  | Some _ => db
  | None => db ++ [(tableName, [])]
  end.

(** [this.tables[tableName].push(record)] on an existing table. *)
Fixpoint push (tableName : string) (record : A) (db : tables) : tables :=
  match db with
  | [] => []
  | (t, rows) :: db' =>
      if String.eqb t tableName then (t, rows ++ [record]) :: db'
      else (t, rows) :: push tableName record db'
  end.

Definition insert (tableName : string) (record : A) (db : tables) : tables :=
  push tableName record (ensureTable tableName db).

(** [query] returns the records that satisfy the condition; through
    [ensureTable] it also changes the database. *)
Definition query (tableName : string) (condition : A -> bool) (db : tables)
  : list A * tables :=
  let db' := ensureTable tableName db in
  (match lookup tableName db' with
   | Some rows => List.filter condition rows
   | None => []
   end, db').

Definition getTables (db : tables) : list string := map fst db.

Definition getAll (tableName : string) (db : tables) : list A * tables :=
  let db' := ensureTable tableName db in
  (match lookup tableName db' with Some rows => rows | None => [] end, db').

End Tables.

Arguments tables A : clear implicits.

End MockDatabase.

(** An element of [variantData]; the React form keeps a variant of the
    same shape in its state. *)
Record variant : Type := {
  variantChromosome : string;
  variantPosition : Z;
  referenceAllele : string;
  alternateAllele : string
}.

(** A stored record. *)
Record row : Type := {
  row_id : string;
  row_chromosome : string;
  row_position : Z;
  row_reference_allele : string;
  row_alternate_allele : string;
  row_created_at : string
}.

(** The identifier of a variant, as both examples compute it. *)
Definition variantId (v : variant) : string :=
  generate (variantChromosome v) (PosNumber (variantPosition v))
           (referenceAllele v) (alternateAllele v).

Section DatabaseExample.

(** What [new Date().toISOString()] returns in the n-th iteration. *)
Variable toISOString : nat -> string.

(** The body of the loop of [processVariants]: a thrown error leaves
    the database as it was. *)
Definition storeVariant (i : nat) (v : variant) (db : MockDatabase.tables row)
  : MockDatabase.tables row * result unit :=
  let vrsId := variantId v in
  match getSqlTableForVariant vrsId with
  | Throw e => (db, Throw e)
  | Ok tableName =>
      match getChromosomeFromVrsId vrsId with
      | Throw e => (db, Throw e)
      | Ok chrom =>
          (MockDatabase.insert tableName
             {| row_id := vrsId;
                row_chromosome := chrom;
                row_position := variantPosition v;
                row_reference_allele := referenceAllele v;
                row_alternate_allele := alternateAllele v;
                row_created_at := toISOString i |} db,
           Ok tt)
      end
  end.

(** [processVariants]: the loop stops at the first error, which
    propagates to the caller; what was stored before stays stored. *)
Fixpoint processVariantsFrom (i : nat) (variants : list variant)
         (db : MockDatabase.tables row) : MockDatabase.tables row * result unit :=
  match variants with
  | [] => (db, Ok tt)
  | v :: rest =>
      match storeVariant i v db with
      | (db', Ok _) => processVariantsFrom (S i) rest db'
      | (db', Throw e) => (db', Throw e)
      end
  end.

Definition processVariants (variants : list variant) (db : MockDatabase.tables row)
  : MockDatabase.tables row * result unit :=
  processVariantsFrom 0 variants db.

End DatabaseExample.

(** [queryVariantByVrsId]: every error is caught and turned into
    [null]. *)
Definition queryVariantByVrsId (vrsId : string) (db : MockDatabase.tables row)
  : option row * MockDatabase.tables row :=
  match parseVrsId vrsId with
  | Throw _ => (None, db)
  | Ok _ =>
      match getSqlTableForVariant vrsId with
      | Throw _ => (None, db)
      | Ok tableName =>
          let '(results, db') :=
            MockDatabase.query tableName (fun record => String.eqb (row_id record) vrsId) db in
          (match results with
           | r :: _ => Some r
           | [] => None
           end, db')
      end
  end.

(** Every record sits in the table its identifier names, with the
    chromosome its identifier carries, and no table is listed twice. *)
Definition routed (db : MockDatabase.tables row) : Prop :=
  NoDup (MockDatabase.getTables db) /\
  forall t rows r, MockDatabase.lookup t db = Some rows -> In r rows ->
    getSqlTableForVariant (row_id r) = Ok t /\
    getChromosomeFromVrsId (row_id r) = Ok (row_chromosome r).

(** A record is in a table of the database. *)
Definition holds (db : MockDatabase.tables row) (t : string) (r : row) : Prop :=
  exists rows, MockDatabase.lookup t db = Some rows /\ In r rows.

(** ** The form example (handleSubmit)

    The state the component shows after a submission: [formResult] is
    the [result] state (the identifier and its parsed components, or
    [null]), [formError] the [error] state. *)

Record formState : Type := {
  formResult : option (string * components);
  formError : option string
}.

Definition failed (message : string) : formState :=
  {| formResult := None; formError := Some message |}.

(** [handleSubmit]: [setError(null)], the three required-field checks,
    then [generateVrsId] and [parseVrsId]; the [catch] clause shows the
    message of whatever was thrown.  [!variant.position] holds for 0. *)
Definition handleSubmit (v : variant) : formState :=
  if String.eqb (variantChromosome v) EmptyString then failed "Chromosome is required"
  else if variantPosition v =? 0 then failed "Position is required"
  else if String.eqb (referenceAllele v) EmptyString &&
          String.eqb (alternateAllele v) EmptyString
       then failed "At least one allele must be specified"
  else
    let vrsId := variantId v in
    match parseVrsId vrsId with
    | Throw (Error message) => failed message
    | Ok parsedComponents =>
        {| formResult := Some (vrsId, parsedComponents); formError := None |}
    end.

(** * Properties *)

(** ** Strings *)

#[local] Arguments String.append !s1 s2 : simpl nomatch.

Section StringFacts.

Lemma append_assoc (a b c : string) : (a +:+ b) +:+ c = a +:+ (b +:+ c).
Proof. induction a as [|x a IH]; simpl; [reflexivity | now rewrite IH]. Qed.

Lemma append_empty_r (a : string) : a +:+ EmptyString = a.
Proof. induction a as [|x a IH]; simpl; [reflexivity | now rewrite IH]. Qed.

Lemma length_append (a b : string) :
  String.length (a +:+ b) = (String.length a + String.length b)%nat.
Proof. induction a as [|x a IH]; simpl; [reflexivity | now rewrite IH]. Qed.

Lemma all_append (p : ascii -> bool) (a b : string) :
  JsString.all p (a +:+ b) = JsString.all p a && JsString.all p b.
Proof.
  induction a as [|x a IH]; simpl; [reflexivity|].
  rewrite IH. now destruct (p x).
Qed.

Lemma all_impl (p q : ascii -> bool) (s : string) :
  (forall c, p c = true -> q c = true) ->
  JsString.all p s = true -> JsString.all q s = true.
Proof.
  intros Hpq. induction s as [|x s IH]; simpl; [reflexivity|].
  intros H. apply andb_true_iff in H as [Hx Hs].
  rewrite (Hpq _ Hx), (IH Hs). reflexivity.
Qed.

Lemma append_inv_head (a b c : string) : a +:+ b = a +:+ c -> b = c.
Proof. induction a as [|x a IH]; simpl; [auto | intros [= H]; auto]. Qed.

Lemma startsWith_append (p s : string) : JsString.startsWith p (p +:+ s) = true.
Proof.
  induction p as [|x p IH]; simpl; [reflexivity|].
  now rewrite Ascii.eqb_refl.
Qed.

Lemma startsWith_inv (p s : string) :
  JsString.startsWith p s = true -> exists t, s = p +:+ t.
Proof.
  revert s. induction p as [|x p IH]; intros s; simpl.
  - exists s. reflexivity.
  - destruct s as [|y s]; [discriminate|].
    destruct (Ascii.eqb_spec x y) as [->|]; [|discriminate].
    intros H. destruct (IH _ H) as [t ->]. now exists t.
Qed.

(** Two ways of cutting a string at a colon agree when neither head
    holds a colon. *)
Lemma cut_at_colon_unique (a a' b b' : string) :
  JsString.all Regex.notColon a = true ->
  JsString.all Regex.notColon a' = true ->
  a +:+ ":" +:+ b = a' +:+ ":" +:+ b' ->
  a = a' /\ b = b'.
Proof.
  revert a'. induction a as [|x a IH]; intros [|x' a']; simpl; intros Ha Ha' E.
  - injection E as ->. auto.
  - injection E as <- _. discriminate.
  - injection E as -> _. discriminate.
  - injection E as -> E.
    apply andb_true_iff in Ha as [_ Ha]. apply andb_true_iff in Ha' as [_ Ha'].
    destruct (IH _ Ha Ha' E) as [-> ->]. auto.
Qed.

End StringFacts.

(** ** The matcher *)

Section RegexFacts.
Context {R : Type}.

Lemma lit_append (p s : string) (k : string -> option R) :
  Regex.lit p (p +:+ s) k = k s.
Proof.
  induction p as [|x p IH]; simpl; [reflexivity|].
  now rewrite Ascii.eqb_refl.
Qed.

Lemma lit_Some (p s : string) (k : string -> option R) (r : R) :
  Regex.lit p s k = Some r -> exists t, s = p +:+ t /\ k t = Some r.
Proof.
  revert s. induction p as [|x p IH]; intros s; simpl.
  - intros H. now exists s.
  - destruct s as [|y s]; [discriminate|].
    destruct (Ascii.eqb_spec x y) as [->|]; [|discriminate].
    intros H. destruct (IH _ H) as (t & -> & Ht). now exists t.
Qed.

Lemma plusFrom_stops cls acc s (k : string -> string -> option R) :
  Regex.stops cls s -> Regex.plusFrom cls acc s k = None.
Proof. destruct s as [|c s]; simpl; [reflexivity | now intros ->]. Qed.

(** A greedy repetition followed by something that cannot start with
    a character of the class takes the whole run. *)
Lemma plusFrom_run cls acc pre post (k : string -> string -> option R) :
  (forall g c s, cls c = true -> k g (String c s) = None) ->
  pre <> EmptyString ->
  JsString.all cls pre = true ->
  Regex.stops cls post ->
  Regex.plusFrom cls acc (pre +:+ post) k = k (acc +:+ pre) post.
Proof.
  intros Hk. revert acc.
  induction pre as [|c pre IH]; intros acc Hne Hall Hpost; [congruence|].
  simpl in Hall. apply andb_true_iff in Hall as [Hc Hall].
  simpl. rewrite Hc.
  destruct pre as [|d pre].
  - simpl. rewrite plusFrom_stops by assumption. reflexivity.
  - rewrite IH by (assumption || discriminate).
    rewrite append_assoc. simpl.
    destruct (k (acc +:+ String c (String d pre)) post) eqn:E; [reflexivity|].
    simpl in Hall. apply andb_true_iff in Hall as [Hd _].
    now apply Hk.
Qed.

Lemma plusFrom_Some cls acc s (k : string -> string -> option R) (r : R) :
  Regex.plusFrom cls acc s k = Some r ->
  exists pre post,
    s = pre +:+ post /\ pre <> EmptyString /\ JsString.all cls pre = true /\
    k (acc +:+ pre) post = Some r.
Proof.
  revert acc. induction s as [|c s IH]; intros acc; simpl; [discriminate|].
  destruct (cls c) eqn:Hc; [|discriminate].
  destruct (Regex.plusFrom cls (acc +:+ String c EmptyString) s k) eqn:E.
  - intros [= ->]. destruct (IH _ E) as (pre & post & -> & _ & Hall & Hk).
    exists (String c pre), post. simpl. rewrite Hc, Hall.
    rewrite append_assoc in Hk. simpl in Hk. repeat split; auto; discriminate.
  - intros Hk. exists (String c EmptyString), s. simpl. rewrite Hc.
    repeat split; auto; discriminate.
Qed.

End RegexFacts.

(** What the pattern accepts, and with which captures. *)
Lemma vrsPattern_intro (chrom rest : string) :
  chrom <> EmptyString -> JsString.all Regex.notColon chrom = true ->
  rest <> EmptyString -> JsString.all Regex.dot rest = true ->
  vrsPattern ("ga4gh:VA:" +:+ chrom +:+ ":" +:+ rest) = Some (chrom, rest).
Proof.
  intros Hc Hcc Hr Hrr. unfold vrsPattern, Regex.plus.
  rewrite lit_append.
  rewrite plusFrom_run; try assumption; try reflexivity.
  - change (EmptyString +:+ chrom) with chrom.
    rewrite lit_append.
    rewrite <- (append_empty_r rest) at 1.
    rewrite plusFrom_run; try assumption; try exact I.
    + reflexivity.
    + intros g c s _. reflexivity.
  - intros g c s H. cbn [Regex.lit]. unfold Regex.notColon in H.
    rewrite Ascii.eqb_sym. now destruct (Ascii.eqb c ":").
Qed.

Lemma vrsPattern_Some (s g1 g2 : string) :
  vrsPattern s = Some (g1, g2) ->
  s = "ga4gh:VA:" +:+ g1 +:+ ":" +:+ g2 /\
  g1 <> EmptyString /\ JsString.all Regex.notColon g1 = true /\
  g2 <> EmptyString /\ JsString.all Regex.dot g2 = true.
Proof.
  unfold vrsPattern, Regex.plus. intros H.
  apply lit_Some in H as (s1 & -> & H).
  apply plusFrom_Some in H as (p1 & s2 & -> & Hp1 & Hall1 & H).
  apply lit_Some in H as (s3 & -> & H).
  apply plusFrom_Some in H as (p2 & s4 & -> & Hp2 & Hall2 & H).
  destruct s4; [|discriminate]. simpl in H. injection H as <- <-.
  rewrite append_empty_r. auto.
Qed.

(** ** Validation and parsing *)

Section Validation.

Lemma isValidVrsId_pattern (id : string) :
  isValidVrsId id = match vrsPattern id with Some _ => true | None => false end.
Proof.
  unfold isValidVrsId. destruct id as [|c id]; [reflexivity|].
  reflexivity.
Qed.

Lemma parseVrsId_pattern (id : string) :
  parseVrsId id =
  match vrsPattern id with
  | Some (m1, m2) => Ok {| chromosome := m1; digest := m2; type := "VA" |}
  | None => Throw (invalidIdentifierError id)
  end.
Proof.
  unfold parseVrsId. rewrite isValidVrsId_pattern.
  destruct (vrsPattern id) as [[m1 m2]|]; reflexivity.
Qed.

Lemma isValidVrsId_intro (chrom rest : string) :
  chrom <> EmptyString -> JsString.all Regex.notColon chrom = true ->
  rest <> EmptyString -> JsString.all Regex.dot rest = true ->
  isValidVrsId ("ga4gh:VA:" +:+ chrom +:+ ":" +:+ rest) = true.
Proof.
  intros. rewrite isValidVrsId_pattern, vrsPattern_intro by assumption.
  reflexivity.
Qed.

Lemma parseVrsId_intro (chrom rest : string) :
  chrom <> EmptyString -> JsString.all Regex.notColon chrom = true ->
  rest <> EmptyString -> JsString.all Regex.dot rest = true ->
  parseVrsId ("ga4gh:VA:" +:+ chrom +:+ ":" +:+ rest) =
  Ok {| chromosome := chrom; digest := rest; type := "VA" |}.
Proof.
  intros. rewrite parseVrsId_pattern, vrsPattern_intro by assumption.
  reflexivity.
Qed.

Lemma parseVrsId_valid (id : string) :
  isValidVrsId id = true ->
  exists chrom rest,
    id = "ga4gh:VA:" +:+ chrom +:+ ":" +:+ rest /\
    chrom <> EmptyString /\ JsString.all Regex.notColon chrom = true /\
    rest <> EmptyString /\ JsString.all Regex.dot rest = true /\
    parseVrsId id = Ok {| chromosome := chrom; digest := rest; type := "VA" |}.
Proof.
  rewrite isValidVrsId_pattern, parseVrsId_pattern.
  destruct (vrsPattern id) as [[m1 m2]|] eqn:E; [|discriminate].
  intros _. apply vrsPattern_Some in E as (-> & ? & ? & ? & ?).
  exists m1, m2. auto 10.
Qed.

Lemma parseVrsId_invalid (id : string) :
  isValidVrsId id = false -> parseVrsId id = Throw (invalidIdentifierError id).
Proof.
  rewrite isValidVrsId_pattern, parseVrsId_pattern.
  destruct (vrsPattern id) as [[m1 m2]|]; [discriminate | reflexivity].
Qed.

(** The derived functions throw what [parseVrsId] throws, and nothing
    else. *)
Lemma getChromosomeFromVrsId_throw (id : string) (e : error) :
  getChromosomeFromVrsId id = Throw e <-> parseVrsId id = Throw e.
Proof.
  unfold getChromosomeFromVrsId, mbind, result_bind.
  destruct (parseVrsId id); split; congruence.
Qed.

Lemma getSqlTableForVariant_throw (id : string) (e : error) :
  getSqlTableForVariant id = Throw e <-> parseVrsId id = Throw e.
Proof.
  rewrite <- getChromosomeFromVrsId_throw.
  unfold getSqlTableForVariant, mbind, result_bind.
  destruct (getChromosomeFromVrsId id); split; congruence.
Qed.

Lemma buildVariantQuery_throw (id : string) (e : error) :
  buildVariantQuery id = Throw e <-> parseVrsId id = Throw e.
Proof.
  unfold buildVariantQuery, mbind, result_bind.
  destruct (getSqlTableForVariant id) as [t|e'] eqn:Ht.
  - destruct (getChromosomeFromVrsId id) as [c|e''] eqn:Hc.
    + split; [discriminate|]. intros H.
      apply getChromosomeFromVrsId_throw in H. congruence.
    + rewrite <- getChromosomeFromVrsId_throw, Hc. split; congruence.
  - rewrite <- getSqlTableForVariant_throw, Ht. split; congruence.
Qed.

(** An identifier without the literal prefix is rejected. *)
Lemma isValidVrsId_prefix (id : string) :
  isValidVrsId id = true -> JsString.startsWith "ga4gh:VA:" id = true.
Proof.
  intros H. destruct (parseVrsId_valid _ H) as (c & r & -> & _).
  apply startsWith_append.
Qed.

End Validation.

(** ** The digest *)

Section Sha512Facts.

Lemma byteAt_range (k x : Z) : isByte (Sha512.byteAt k x).
Proof.
  unfold isByte, Sha512.byteAt. change 255 with (Z.ones 8).
  rewrite Z.land_ones by lia. apply Z.mod_pos_bound. lia.
Qed.

Lemma be64_bytes (x : Z) : Forall isByte (Sha512.be64 x).
Proof. unfold Sha512.be64. cbn [map]. repeat constructor; apply byteAt_range. Qed.

Lemma output_length (s : Sha512.state) : length (Sha512.output s) = 64%nat.
Proof. reflexivity. Qed.

Lemma output_bytes (s : Sha512.state) : Forall isByte (Sha512.output s).
Proof.
  unfold Sha512.output. rewrite !Forall_app.
  repeat split; apply be64_bytes.
Qed.

(** Whatever the message, the digest is 64 bytes. *)
Lemma digest_length (msg : list Z) : length (Sha512.digest msg) = 64%nat.
Proof. apply output_length. Qed.

Lemma digest_bytes (msg : list Z) : Forall isByte (Sha512.digest msg).
Proof. apply output_bytes. Qed.

End Sha512Facts.

Section Base64Facts.

Lemma lor_bound (x y m : Z) :
  0 <= x -> 0 <= y -> x + y < m -> 0 <= Z.lor x y < m.
Proof.
  intros Hx Hy Hm.
  pose proof (Z.add_lor_land x y) as E.
  assert (0 <= Z.land x y) by (apply Z.land_nonneg; auto).
  assert (0 <= Z.lor x y) by (apply Z.lor_nonneg; auto).
  lia.
Qed.

Lemma land_low (x : Z) (n : Z) : 0 <= n -> 0 <= Z.land x (Z.ones n) < 2 ^ n.
Proof. intros Hn. rewrite Z.land_ones by lia. apply Z.mod_pos_bound. lia. Qed.

Lemma index_hi (a : Z) : isByte a -> 0 <= Z.shiftr a 2 < 64.
Proof.
  unfold isByte. intros H. rewrite Z.shiftr_div_pow2 by lia.
  change (2 ^ 2) with 4. split.
  - apply Z.div_pos; lia.
  - apply Z.div_lt_upper_bound; lia.
Qed.

Lemma index_mid1 (a b : Z) :
  isByte a -> isByte b ->
  0 <= Z.lor (Z.shiftl (Z.land a 3) 4) (Z.shiftr b 4) < 64.
Proof.
  unfold isByte. intros Ha Hb.
  pose proof (land_low a 2 ltac:(lia)) as H3. change (Z.ones 2) with 3 in H3.
  change (2 ^ 2) with 4 in H3.
  rewrite Z.shiftl_mul_pow2, Z.shiftr_div_pow2 by lia.
  change (2 ^ 4) with 16.
  assert (0 <= b / 16 < 16).
  { split; [apply Z.div_pos; lia | apply Z.div_lt_upper_bound; lia]. }
  apply lor_bound; lia.
Qed.

Lemma index_mid2 (b c : Z) :
  isByte b -> isByte c ->
  0 <= Z.lor (Z.shiftl (Z.land b 15) 2) (Z.shiftr c 6) < 64.
Proof.
  unfold isByte. intros Hb Hc.
  pose proof (land_low b 4 ltac:(lia)) as H15. change (Z.ones 4) with 15 in H15.
  change (2 ^ 4) with 16 in H15.
  rewrite Z.shiftl_mul_pow2, Z.shiftr_div_pow2 by lia.
  change (2 ^ 2) with 4. change (2 ^ 6) with 64.
  assert (0 <= c / 64 < 4).
  { split; [apply Z.div_pos; lia | apply Z.div_lt_upper_bound; lia]. }
  apply lor_bound; lia.
Qed.

Lemma index_lo (c : Z) : 0 <= Z.land c 63 < 64.
Proof. apply (land_low c 6). lia. Qed.

(** Every index below 64 selects a character of the alphabet. *)
Lemma table_alphabet (i : Z) : 0 <= i < 64 -> isBase64 (Base64.table i) = true.
Proof.
  intros H. unfold Base64.table.
  assert (Hn : (Z.to_nat i < 64)%nat) by lia.
  revert Hn. generalize (Z.to_nat i) as n. intros n Hn.
  do 64 (destruct n as [|n]; [reflexivity|]). lia.
Qed.

(** Whole groups of three bytes encode to four characters each, all
    from the alphabet: no padding appears. *)
Lemma encode_groups (n : nat) (bs : list Z) :
  length bs = (3 * n)%nat -> Forall isByte bs ->
  String.length (Base64.encode bs) = (4 * n)%nat /\
  JsString.all isBase64 (Base64.encode bs) = true.
Proof.
  revert bs. induction n as [|n IH]; intros bs Hlen Hb.
  - destruct bs; [split; reflexivity | discriminate].
  - destruct bs as [|a [|b [|c rest]]]; try (simpl in Hlen; lia).
    inversion Hb as [|? ? Ha Hb1]; subst.
    inversion Hb1 as [|? ? Hb' Hb2]; subst.
    inversion Hb2 as [|? ? Hc Hrest]; subst.
    destruct (IH rest) as [IHl IHa]; [simpl in Hlen; lia | assumption |].
    cbn [Base64.encode String.length JsString.all].
    rewrite IHl, IHa.
    rewrite (table_alphabet _ (index_hi a Ha)).
    rewrite (table_alphabet _ (index_mid1 a b Ha Hb')).
    rewrite (table_alphabet _ (index_mid2 b c Hb' Hc)).
    rewrite (table_alphabet _ (index_lo c)).
    split; [lia | reflexivity].
Qed.

End Base64Facts.

Section UrlSafeFacts.

Lemma urlSafe_char (x : ascii) :
  isBase64 x = true ->
  isUrlSafe (if Ascii.eqb (if Ascii.eqb x "+" then "-"%char else x) "/"
             then "_"%char
             else if Ascii.eqb x "+" then "-"%char else x) = true.
Proof.
  destruct x as [[] [] [] [] [] [] [] []]; vm_compute; congruence.
Qed.

Lemma urlSafe_not_equals (x : ascii) :
  isUrlSafe x = true -> Ascii.eqb x "=" = false.
Proof.
  destruct x as [[] [] [] [] [] [] [] []]; vm_compute; congruence.
Qed.

Lemma urlSafe_dot (x : ascii) : isUrlSafe x = true -> Regex.dot x = true.
Proof.
  destruct x as [[] [] [] [] [] [] [] []]; vm_compute; congruence.
Qed.

Lemma urlSafe_notColon (x : ascii) : isUrlSafe x = true -> Regex.notColon x = true.
Proof.
  destruct x as [[] [] [] [] [] [] [] []]; vm_compute; congruence.
Qed.

Lemma length_replaceAll (c d : ascii) (s : string) :
  String.length (JsString.replaceAll c d s) = String.length s.
Proof. induction s as [|x s IH]; simpl; [reflexivity | now rewrite IH]. Qed.

Lemma urlSafe_replaced (s : string) :
  JsString.all isBase64 s = true ->
  JsString.all isUrlSafe
    (JsString.replaceAll "/" "_" (JsString.replaceAll "+" "-" s)) = true.
Proof.
  induction s as [|x s IH]; [reflexivity|].
  cbn [JsString.all JsString.replaceAll].
  intros H. apply andb_true_iff in H as [Hx Hs].
  rewrite (urlSafe_char x Hx), (IH Hs). reflexivity.
Qed.

Lemma stripTrailingEquals_urlSafe (s : string) :
  JsString.all isUrlSafe s = true -> JsString.stripTrailingEquals s = s.
Proof.
  induction s as [|x s IH]; [reflexivity|].
  cbn [JsString.all JsString.stripTrailingEquals].
  intros H. apply andb_true_iff in H as [Hx Hs].
  rewrite (IH Hs). destruct s; [|reflexivity].
  now rewrite (urlSafe_not_equals x Hx).
Qed.

(** Lines 52-60 always yield 32 characters of [[A-Za-z0-9_-]]. *)
Lemma urlSafeDigest_spec (data : string) :
  String.length (urlSafeDigest data) = 32%nat /\
  JsString.all isUrlSafe (urlSafeDigest data) = true.
Proof.
  unfold urlSafeDigest.
  set (hash := Sha512.digest (JsString.utf8 data)).
  assert (Hlen : length (firstn 24 hash) = (3 * 8)%nat).
  { rewrite length_take. unfold hash. rewrite digest_length. reflexivity. }
  assert (Hb : Forall isByte (firstn 24 hash)).
  { apply Forall_take. apply digest_bytes. }
  destruct (encode_groups 8 _ Hlen Hb) as [Hl Ha].
  pose proof (urlSafe_replaced _ Ha) as Hu.
  rewrite (stripTrailingEquals_urlSafe _ Hu).
  rewrite !length_replaceAll. auto.
Qed.

Lemma urlSafeDigest_nonempty (data : string) : urlSafeDigest data <> EmptyString.
Proof.
  intros E. pose proof (urlSafeDigest_spec data) as [H _].
  rewrite E in H. discriminate.
Qed.

End UrlSafeFacts.

(** ** Generation *)

Section GenerateFacts.

Lemma append_nonempty_r (a b : string) (c : ascii) : a +:+ String c b <> EmptyString.
Proof. destruct a; discriminate. Qed.

(** The chromosome enters [generateVrsId] through its canonical form
    only, and the assembly not at all. *)
Lemma generateVrsId_canonical (c1 c2 : string) p r a s1 s2 :
  normalizeChromosome c1 = normalizeChromosome c2 ->
  generateVrsId c1 p r a s1 = generateVrsId c2 p r a s2.
Proof. unfold generateVrsId. now intros ->. Qed.

Lemma generateVrsId_standard c p r a s :
  r <> "*" -> a <> "*" ->
  generateVrsId c p r a s =
  "ga4gh:VA:" +:+ normalizeChromosome c +:+ ":" +:+
  urlSafeDigest (payload (normalizeChromosome c) p r a).
Proof.
  intros Hr Ha. unfold generateVrsId.
  apply String.eqb_neq in Hr, Ha. rewrite Hr, Ha. reflexivity.
Qed.

Lemma generateVrsId_special c p r a s :
  r = "*" \/ a = "*" ->
  generateVrsId c p r a s =
  "ga4gh:VA:SPECIAL:" +:+ specialLabel (normalizeChromosome c) p r a.
Proof.
  intros H. unfold generateVrsId.
  assert (String.eqb a "*" || String.eqb r "*" = true) as ->; [|reflexivity].
  apply orb_true_iff. destruct H as [->| ->]; [right | left]; apply String.eqb_refl.
Qed.

Lemma urlSafeDigest_dot (data : string) :
  JsString.all Regex.dot (urlSafeDigest data) = true.
Proof.
  apply (all_impl isUrlSafe); [apply urlSafe_dot|].
  apply urlSafeDigest_spec.
Qed.

Lemma specialLabel_nonempty nc p r a : specialLabel nc p r a <> EmptyString.
Proof. unfold specialLabel. apply append_nonempty_r. Qed.

(** The wildcard form is accepted exactly when no line terminator
    occurs after the [SPECIAL:] marker. *)
Lemma isValidVrsId_special (label : string) :
  label <> EmptyString ->
  isValidVrsId ("ga4gh:VA:SPECIAL:" +:+ label) = JsString.all Regex.dot label.
Proof.
  intros Hne.
  destruct (JsString.all Regex.dot label) eqn:Hdot.
  - apply (isValidVrsId_intro "SPECIAL" label); auto; discriminate.
  - destruct (isValidVrsId _) eqn:Hv; [|reflexivity].
    apply parseVrsId_valid in Hv as (chrom & rest & E & _ & Hc & _ & Hr & _).
    apply (append_inv_head "ga4gh:VA:") in E.
    apply (cut_at_colon_unique "SPECIAL" chrom label rest) in E as [_ ->];
      [congruence | reflexivity | assumption].
Qed.

End GenerateFacts.

(** * The claims *)

(** C1: for chromosome "chr7", position 55174772, reference
    "GGAATTAAGAGAAGC" and an empty alternate, the chromosome is
    canonicalized to "7", the payload "7:55174772:GGAATTAAGAGAAGC:" is
    hashed with SHA-512, the digest is truncated to its first 24 bytes
    and encoded, and [generateVrsId] returns exactly
    "ga4gh:VA:7:v9TQXvNOQeG1vNRVJCWlD_a1tRf_m2AP". *)
Theorem generate_chr7_example :
  let data := payload (normalizeChromosome "chr7") (PosNumber 55174772)
                      "GGAATTAAGAGAAGC" EmptyString in
  normalizeChromosome "chr7" = "7" /\
  data = "7:55174772:GGAATTAAGAGAAGC:" /\
  length (Sha512.digest (JsString.utf8 data)) = 64%nat /\
  length (firstn 24 (Sha512.digest (JsString.utf8 data))) = 24%nat /\
  Base64.encode (firstn 24 (Sha512.digest (JsString.utf8 data))) =
    "v9TQXvNOQeG1vNRVJCWlD/a1tRf/m2AP" /\
  urlSafeDigest data = "v9TQXvNOQeG1vNRVJCWlD_a1tRf_m2AP" /\
  generate "chr7" (PosNumber 55174772) "GGAATTAAGAGAAGC" EmptyString =
    "ga4gh:VA:7:v9TQXvNOQeG1vNRVJCWlD_a1tRf_m2AP".
Proof. vm_compute. repeat split. Qed.

(** C2: [generateVrsId] gives the same identifier for "chr7" and "7",
    for "chrM" and "MT", and for "chrUn" and "Un", whatever the
    position and the alleles, because [normalizeChromosome] strips one
    lowercase "chr" prefix and then maps M to MT, MT to MT and Un to
    UN; the prefix test is case-sensitive, so "ChrX" is left alone. *)
Theorem generate_chromosome_equivalence (p : position) (r a : string) :
  generate "chr7" p r a = generate "7" p r a /\
  generate "chrM" p r a = generate "MT" p r a /\
  generate "chrUn" p r a = generate "Un" p r a /\
  (forall s, normalizeChromosome ("chr" +:+ s) =
             if String.eqb s "M" then "MT"
             else if String.eqb s "MT" then "MT"
             else if String.eqb s "Un" then "UN"
             else s) /\
  normalizeChromosome "M" = "MT" /\
  normalizeChromosome "MT" = "MT" /\
  normalizeChromosome "Un" = "UN" /\
  normalizeChromosome "chrchr7" = "chr7" /\
  normalizeChromosome "ChrX" = "ChrX".
Proof.
  repeat split; try reflexivity;
    apply generateVrsId_canonical; reflexivity.
Qed.

(** C3, as stated, fails in three ways: an empty canonical chromosome
    gives an identifier the validator rejects; a colon inside the
    chromosome ends the chromosome slot early; and the wildcard form
    carries "SPECIAL" in the chromosome slot. *)
Lemma generate_round_trip_counterexample :
  ~ roundTrips "chr" (PosNumber 1) "A" "G" defaultAssembly /\
  ~ roundTrips "a:b" (PosNumber 1) "A" "G" defaultAssembly /\
  ~ roundTrips "chr7" (PosNumber 1) "*" "G" defaultAssembly.
Proof.
  unfold roundTrips. repeat split.
  - intros [H _]. vm_compute in H. discriminate.
  - intros [_ (comp & H1 & H2)]. vm_compute in H1, H2.
    injection H1 as <-. discriminate.
  - intros [_ (comp & H1 & H2)]. vm_compute in H1, H2.
    injection H1 as <-. discriminate.
Qed.

(** C3 (amended): when neither allele is the wildcard and the canonical
    chromosome is non-empty and holds no colon, the identifier
    [generateVrsId] returns is accepted by [isValidVrsId], and
    [parseVrsId] returns the canonical chromosome in its chromosome
    field. *)
Theorem generate_round_trip (c : string) (p : position) (r a assembly : string) :
  r <> "*" -> a <> "*" ->
  normalizeChromosome c <> EmptyString ->
  JsString.all Regex.notColon (normalizeChromosome c) = true ->
  roundTrips c p r a assembly.
Proof.
  intros Hr Ha Hne Hcolon. unfold roundTrips.
  rewrite generateVrsId_standard by assumption.
  split.
  - apply isValidVrsId_intro; auto using urlSafeDigest_nonempty, urlSafeDigest_dot.
  - eexists. split.
    + apply parseVrsId_intro; auto using urlSafeDigest_nonempty, urlSafeDigest_dot.
    + reflexivity.
Qed.

Lemma generate_round_trip_witness :
  roundTrips "chr7" (PosNumber 55174772) "GGAATTAAGAGAAGC" EmptyString defaultAssembly.
Proof.
  apply generate_round_trip; [discriminate | discriminate | discriminate | reflexivity].
Defined.

(** C4: [isValidVrsId] is total and rejects the empty string;
    [parseVrsId] throws its invalid-identifier error exactly when
    [isValidVrsId] is false, and otherwise returns the colon-free
    segment after "ga4gh:VA:" as chromosome, everything after the next
    colon as digest, and "VA" as type; [getChromosomeFromVrsId],
    [getSqlTableForVariant] and [buildVariantQuery] throw the same error
    on the same inputs. *)
Theorem invalid_identifier_errors (id : string) :
  isValidVrsId EmptyString = false /\
  (exists b, isValidVrsId id = b) /\
  (isValidVrsId id = false <-> parseVrsId id = Throw (invalidIdentifierError id)) /\
  (isValidVrsId id = false <-> exists e, parseVrsId id = Throw e) /\
  (isValidVrsId id = true <->
     exists chrom rest,
       id = "ga4gh:VA:" +:+ chrom +:+ ":" +:+ rest /\
       JsString.all Regex.notColon chrom = true /\
       parseVrsId id = Ok {| chromosome := chrom; digest := rest; type := "VA" |}) /\
  (forall e, getChromosomeFromVrsId id = Throw e <-> parseVrsId id = Throw e) /\
  (forall e, getSqlTableForVariant id = Throw e <-> parseVrsId id = Throw e) /\
  (forall e, buildVariantQuery id = Throw e <-> parseVrsId id = Throw e).
Proof.
  assert (Hok : forall comp, parseVrsId id = Ok comp -> isValidVrsId id = true).
  { intros comp H. destruct (isValidVrsId id) eqn:E; [reflexivity|].
    rewrite (parseVrsId_invalid _ E) in H. discriminate. }
  assert (Hthrow : forall e, parseVrsId id = Throw e -> isValidVrsId id = false).
  { intros e H. destruct (isValidVrsId id) eqn:E; [|reflexivity].
    apply parseVrsId_valid in E as (? & ? & _ & _ & _ & _ & _ & E). congruence. }
  split; [reflexivity|].
  split; [eexists; reflexivity|].
  split; [split; [apply parseVrsId_invalid | apply Hthrow]|].
  split.
  { split; [intros H; eexists; apply (parseVrsId_invalid _ H) | intros [e H]; eauto]. }
  split.
  { split.
    - intros H. apply parseVrsId_valid in H as (chrom & rest & ? & ? & ? & ? & ? & ?).
      exists chrom, rest. auto.
    - intros (chrom & rest & _ & _ & H). eauto. }
  split; [apply getChromosomeFromVrsId_throw|].
  split; [apply getSqlTableForVariant_throw | apply buildVariantQuery_throw].
Qed.

Lemma invalid_identifier_errors_witness :
  parseVrsId "invalid-vrs-id" = Throw (invalidIdentifierError "invalid-vrs-id") /\
  buildVariantQuery "invalid-vrs-id" = Throw (invalidIdentifierError "invalid-vrs-id").
Proof.
  destruct (invalid_identifier_errors "invalid-vrs-id")
    as (_ & _ & [Hp _] & _ & _ & _ & _ & Hq).
  split; [apply Hp; reflexivity | apply Hq, Hp; reflexivity].
Defined.

(** C5, as stated, fails: the identifier "ga4gh:XX:7:digest", whose tag
    is not VA, is rejected by [isValidVrsId] and makes [parseVrsId]
    throw. *)
Lemma non_VA_tag_rejected :
  isValidVrsId "ga4gh:XX:7:digest" = false /\
  parseVrsId "ga4gh:XX:7:digest" = Throw (invalidIdentifierError "ga4gh:XX:7:digest").
Proof. split; reflexivity. Qed.

(** C5 (amended): the pattern contains the literal "VA", so an
    identifier "ga4gh:<tag>:<chrom>:<rest>" whose colon-free tag is not
    "VA" is rejected by [isValidVrsId] and [parseVrsId] throws on it;
    the constant "VA" that [parseVrsId] returns as type is therefore
    the tag that was matched. *)
Theorem type_tag_checked (tag chrom rest : string) :
  JsString.all Regex.notColon tag = true ->
  tag <> "VA" ->
  let id := "ga4gh:" +:+ tag +:+ ":" +:+ chrom +:+ ":" +:+ rest in
  isValidVrsId id = false /\
  parseVrsId id = Throw (invalidIdentifierError id) /\
  (forall id' comp, parseVrsId id' = Ok comp ->
     type comp = "VA" /\ JsString.startsWith "ga4gh:VA:" id' = true).
Proof.
  intros Hcolon Hne id.
  assert (Hv : isValidVrsId id = false).
  { destruct (isValidVrsId id) eqn:E; [|reflexivity].
    apply isValidVrsId_prefix, startsWith_inv in E as [t E].
    unfold id in E. apply (append_inv_head "ga4gh:") in E.
    apply (cut_at_colon_unique tag "VA" _ t) in E as [E _];
      [congruence | assumption | reflexivity]. }
  split; [assumption|].
  split; [apply parseVrsId_invalid; assumption|].
  intros id' comp H. rewrite parseVrsId_pattern in H.
  destruct (vrsPattern id') as [[m1 m2]|] eqn:E; [|discriminate].
  injection H as <-. split; [reflexivity|].
  apply vrsPattern_Some in E as (-> & _). apply startsWith_append.
Qed.

Lemma type_tag_checked_witness :
  isValidVrsId "ga4gh:XX:7:v9TQXvNOQeG1vNRVJCWlD_a1tRf_m2AP" = false.
Proof.
  apply (type_tag_checked "XX" "7" "v9TQXvNOQeG1vNRVJCWlD_a1tRf_m2AP");
    [reflexivity | discriminate].
Defined.

(** C6, as stated, fails on its second half: a reference allele that
    carries a line break gives a wildcard identifier that
    [isValidVrsId] rejects, because [.] matches no line terminator. *)
Lemma special_form_line_terminator :
  generate "chr7" (PosNumber 55174772) ("A" +:+ nl) "*" =
    "ga4gh:VA:SPECIAL:7-55174772-A" +:+ nl +:+ "-*" /\
  isValidVrsId (generate "chr7" (PosNumber 55174772) ("A" +:+ nl) "*") = false.
Proof. split; reflexivity. Qed.

(** C6 (amended): when the reference or the alternate allele is "*",
    [generateVrsId] returns "ga4gh:VA:SPECIAL:" followed by the
    canonical chromosome, the position, the reference and the alternate
    joined by "-", unhashed and unescaped; such an identifier satisfies
    [isValidVrsId] exactly when no line terminator occurs in the joined
    fields, and is then parsed with "SPECIAL" in the chromosome slot. *)
Theorem special_form (c : string) (p : position) (r a assembly : string) :
  r = "*" \/ a = "*" ->
  let id := generateVrsId c p r a assembly in
  let label := normalizeChromosome c +:+ "-" +:+ positionText p +:+ "-" +:+ r +:+ "-" +:+ a in
  id = "ga4gh:VA:SPECIAL:" +:+ label /\
  isValidVrsId id = JsString.all Regex.dot label /\
  (JsString.all Regex.dot label = true ->
   parseVrsId id = Ok {| chromosome := "SPECIAL"; digest := label; type := "VA" |}).
Proof.
  intros H id label. unfold id. rewrite (generateVrsId_special _ _ _ _ _ H).
  fold label. change (specialLabel (normalizeChromosome c) p r a) with label.
  assert (Hne : label <> EmptyString) by apply specialLabel_nonempty.
  split; [reflexivity|].
  split; [apply isValidVrsId_special; assumption|].
  intros Hdot. apply (parseVrsId_intro "SPECIAL" label); auto; discriminate.
Qed.

Lemma special_form_witness :
  generate "chr7" (PosNumber 55174772) "*" "T" = "ga4gh:VA:SPECIAL:7-55174772-*-T" /\
  isValidVrsId (generate "chr7" (PosNumber 55174772) "*" "T") = true.
Proof.
  destruct (special_form "chr7" (PosNumber 55174772) "*" "T" defaultAssembly
              (or_introl eq_refl)) as (H1 & H2 & _).
  split; [exact H1 | exact H2].
Defined.

(** C7: when neither allele is the wildcard, the identifier is
    "ga4gh:VA:", the canonical chromosome, a colon and a digest segment
    of exactly 32 characters, each from [[A-Za-z0-9_-]]: 24 bytes encode
    to 32 base64 characters without padding, and the replacements of
    [+] and [/] make them URL-safe. *)
Theorem digest_shape (c : string) (p : position) (r a assembly : string) :
  r <> "*" -> a <> "*" ->
  exists d,
    generateVrsId c p r a assembly = "ga4gh:VA:" +:+ normalizeChromosome c +:+ ":" +:+ d /\
    d = urlSafeDigest (payload (normalizeChromosome c) p r a) /\
    String.length d = 32%nat /\
    JsString.all isUrlSafe d = true /\
    String.length (Base64.encode (firstn 24 (Sha512.digest
      (JsString.utf8 (payload (normalizeChromosome c) p r a))))) = 32%nat /\
    JsString.all isBase64 (Base64.encode (firstn 24 (Sha512.digest
      (JsString.utf8 (payload (normalizeChromosome c) p r a))))) = true.
Proof.
  intros Hr Ha. eexists. split; [apply generateVrsId_standard; assumption|].
  split; [reflexivity|].
  destruct (urlSafeDigest_spec (payload (normalizeChromosome c) p r a)) as [Hl Hu].
  split; [assumption|]. split; [assumption|].
  apply (encode_groups 8).
  - rewrite length_take, digest_length. reflexivity.
  - apply Forall_take, digest_bytes.
Qed.

Lemma digest_shape_witness :
  exists d,
    generateVrsId "chr17" (PosNumber 31350290) "C" "T" defaultAssembly =
      "ga4gh:VA:" +:+ normalizeChromosome "chr17" +:+ ":" +:+ d /\
    String.length d = 32%nat /\ JsString.all isUrlSafe d = true.
Proof.
  destruct (digest_shape "chr17" (PosNumber 31350290) "C" "T" defaultAssembly)
    as (d & H1 & _ & H2 & H3 & _); [discriminate | discriminate |].
  exists d. auto.
Defined.

(** C8: for an identifier that [isValidVrsId] accepts,
    [getSqlTableForVariant] returns "variants_chr" followed by the
    lowercased chromosome that [parseVrsId] extracts, and
    [buildVariantQuery] returns a query that contains "FROM public."
    and that table name, "WHERE id = @vrsId" and
    "AND chromosome = @chromosome", with the parameters vrsId bound to
    the identifier and chromosome bound to the extracted chromosome. *)
Theorem storage_routing (id : string) :
  isValidVrsId id = true ->
  exists chrom dg q,
    parseVrsId id = Ok {| chromosome := chrom; digest := dg; type := "VA" |} /\
    getChromosomeFromVrsId id = Ok chrom /\
    getSqlTableForVariant id = Ok ("variants_chr" +:+ JsString.toLowerCase chrom) /\
    buildVariantQuery id = Ok q /\
    JsString.includes (query q)
      ("FROM public." +:+ "variants_chr" +:+ JsString.toLowerCase chrom) /\
    JsString.includes (query q) "WHERE id = @vrsId" /\
    JsString.includes (query q) "AND chromosome = @chromosome" /\
    params q !! "vrsId" = Some id /\
    params q !! "chromosome" = Some chrom /\
    dom (params q) = {["vrsId"; "chromosome"]}.
Proof.
  intros H. apply parseVrsId_valid in H as (chrom & rest & _ & _ & _ & _ & _ & Hp).
  exists chrom, rest.
  assert (Hc : getChromosomeFromVrsId id = Ok chrom).
  { unfold getChromosomeFromVrsId, mbind, result_bind. now rewrite Hp. }
  assert (Ht : getSqlTableForVariant id = Ok ("variants_chr" +:+ JsString.toLowerCase chrom)).
  { unfold getSqlTableForVariant, mbind, result_bind. now rewrite Hc. }
  eexists. split; [exact Hp|]. split; [exact Hc|]. split; [exact Ht|].
  split.
  { unfold buildVariantQuery, mbind, result_bind. rewrite Ht, Hc. reflexivity. }
  cbn [query params].
  split.
  { exists (nl +:+ "    SELECT *" +:+ nl +:+ "    "),
           (nl +:+ "    WHERE id = @vrsId" +:+ nl +:+
            "    AND chromosome = @chromosome" +:+ nl +:+ "  ").
    rewrite !append_assoc. reflexivity. }
  split.
  { exists (nl +:+ "    SELECT *" +:+ nl +:+ "    FROM public." +:+
            "variants_chr" +:+ JsString.toLowerCase chrom +:+ nl +:+ "    "),
           (nl +:+ "    AND chromosome = @chromosome" +:+ nl +:+ "  ").
    rewrite !append_assoc. reflexivity. }
  split.
  { exists (nl +:+ "    SELECT *" +:+ nl +:+ "    FROM public." +:+
            "variants_chr" +:+ JsString.toLowerCase chrom +:+ nl +:+
            "    WHERE id = @vrsId" +:+ nl +:+ "    "),
           (nl +:+ "  ").
    rewrite !append_assoc. reflexivity. }
  split; [by simplify_map_eq|].
  split; [by simplify_map_eq|].
  rewrite !dom_insert_L, dom_empty_L. set_solver.
Qed.

Lemma storage_routing_witness :
  exists chrom dg q,
    parseVrsId "ga4gh:VA:X:v9TQXvNOQeG1vNRVJCWlD_a1tRf_m2AP" =
      Ok {| chromosome := chrom; digest := dg; type := "VA" |} /\
    getSqlTableForVariant "ga4gh:VA:X:v9TQXvNOQeG1vNRVJCWlD_a1tRf_m2AP" =
      Ok ("variants_chr" +:+ JsString.toLowerCase chrom) /\
    buildVariantQuery "ga4gh:VA:X:v9TQXvNOQeG1vNRVJCWlD_a1tRf_m2AP" = Ok q.
Proof.
  destruct (storage_routing "ga4gh:VA:X:v9TQXvNOQeG1vNRVJCWlD_a1tRf_m2AP" eq_refl)
    as (chrom & dg & q & H1 & _ & H2 & H3 & _).
  exists chrom, dg, q. auto.
Defined.

(** C9: the fifth parameter of [generateVrsId], the assembly (default
    "GRCh38"), is never used: any two assembly strings give the same
    identifier. *)
Theorem assembly_ignored (c : string) (p : position) (r a s1 s2 : string) :
  generateVrsId c p r a s1 = generateVrsId c p r a s2 /\
  generateVrsId c p r a s1 = generate c p r a.
Proof. split; reflexivity. Qed.

(** C10: when the canonical chromosome is empty (as for the raw input
    "chr") and neither allele is the wildcard, [generateVrsId] returns
    "ga4gh:VA::" followed by the digest; [isValidVrsId] rejects that
    identifier, and [parseVrsId], [getChromosomeFromVrsId],
    [getSqlTableForVariant] and [buildVariantQuery] all throw on it. *)
Theorem empty_chromosome_rejected (c : string) (p : position) (r a assembly : string) :
  normalizeChromosome c = EmptyString ->
  r <> "*" -> a <> "*" ->
  let id := generateVrsId c p r a assembly in
  normalizeChromosome "chr" = EmptyString /\
  (exists d, id = "ga4gh:VA::" +:+ d /\ String.length d = 32%nat) /\
  isValidVrsId id = false /\
  parseVrsId id = Throw (invalidIdentifierError id) /\
  getChromosomeFromVrsId id = Throw (invalidIdentifierError id) /\
  getSqlTableForVariant id = Throw (invalidIdentifierError id) /\
  buildVariantQuery id = Throw (invalidIdentifierError id).
Proof.
  intros Hc Hr Ha id.
  assert (E : id = "ga4gh:VA::" +:+ urlSafeDigest (payload EmptyString p r a)).
  { unfold id. rewrite generateVrsId_standard, Hc by assumption. reflexivity. }
  assert (Hv : isValidVrsId id = false) by (rewrite E; reflexivity).
  pose proof (parseVrsId_invalid _ Hv) as Hp.
  split; [reflexivity|].
  split; [eexists; split; [exact E | apply urlSafeDigest_spec]|].
  split; [exact Hv|]. split; [exact Hp|].
  split; [now apply getChromosomeFromVrsId_throw|].
  split; [now apply getSqlTableForVariant_throw | now apply buildVariantQuery_throw].
Qed.

Lemma empty_chromosome_rejected_witness :
  isValidVrsId (generateVrsId "chr" (PosNumber 12345) "A" "G" defaultAssembly) = false.
Proof.
  apply (empty_chromosome_rejected "chr" (PosNumber 12345) "A" "G" defaultAssembly);
    [reflexivity | discriminate | discriminate].
Defined.

(** * Further properties of src/generator.ts *)

Section MoreStringFacts.

Lemma append_inv_tail (a b c : string) : a +:+ c = b +:+ c -> a = b.
Proof.
  revert b. induction a as [|x a IH]; intros [|y b] E; simpl in E.
  - reflexivity.
  - apply (f_equal String.length) in E. simpl in E. rewrite length_append in E. lia.
  - apply (f_equal String.length) in E. simpl in E. rewrite length_append in E. lia.
  - injection E as -> E. now rewrite (IH _ E).
Qed.

Lemma lowerChar_idempotent (c : ascii) :
  JsString.lowerChar (JsString.lowerChar c) = JsString.lowerChar c.
Proof. destruct c as [[] [] [] [] [] [] [] []]; reflexivity. Qed.

Lemma toLowerCase_idempotent (s : string) :
  JsString.toLowerCase (JsString.toLowerCase s) = JsString.toLowerCase s.
Proof.
  induction s as [|c s IH]; simpl; [reflexivity|].
  now rewrite lowerChar_idempotent, IH.
Qed.

Lemma toLowerCase_append (a b : string) :
  JsString.toLowerCase (a +:+ b) = JsString.toLowerCase a +:+ JsString.toLowerCase b.
Proof. induction a as [|c a IH]; simpl; [reflexivity | now rewrite IH]. Qed.

End MoreStringFacts.

Lemma normalizeChromosome_not_M_Un (c : string) :
  normalizeChromosome c <> "M" /\ normalizeChromosome c <> "Un".
Proof.
  unfold normalizeChromosome.
  set (s := if JsString.startsWith "chr" c then JsString.substring 3 c else c).
  destruct (String.eqb_spec s "M"); [split; discriminate|].
  destruct (String.eqb_spec s "MT"); [split; discriminate|].
  destruct (String.eqb_spec s "Un"); [split; discriminate|].
  split; assumption.
Qed.

(** X1: the canonical chromosome is never "M" and never "Un": both
    spellings are always replaced. *)
Theorem normalizeChromosome_never_M_Un (c : string) :
  normalizeChromosome c <> "M" /\ normalizeChromosome c <> "Un".
Proof. apply normalizeChromosome_not_M_Un. Qed.

(** X2: canonicalizing twice is the same as canonicalizing once exactly
    when the canonical chromosome does not itself begin with "chr"; one
    prefix is stripped per call, so "chrchr7" needs two calls. *)
Theorem normalizeChromosome_idempotent_iff (c : string) :
  normalizeChromosome (normalizeChromosome c) = normalizeChromosome c <->
  JsString.startsWith "chr" (normalizeChromosome c) = false.
Proof.
  destruct (normalizeChromosome_not_M_Un c) as [HM HUn].
  set (n := normalizeChromosome c) in *.
  unfold normalizeChromosome at 1.
  destruct (JsString.startsWith "chr" n) eqn:Hs.
  - split; [|discriminate]. intros E. exfalso.
    apply startsWith_inv in Hs as [t Ht]. rewrite Ht in E.
    change (JsString.substring 3 ("chr" +:+ t)) with t in E.
    assert (Hlen : forall u, u = "chr" +:+ t -> String.length u = S (S (S (String.length t))))
      by (intros u ->; reflexivity).
    destruct (String.eqb_spec t "M") as [->|]; [discriminate|].
    destruct (String.eqb_spec t "MT") as [->|]; [discriminate|].
    destruct (String.eqb_spec t "Un") as [->|]; [discriminate|].
    apply Hlen in E. lia.
  - split; [reflexivity|]. intros _.
    destruct (String.eqb_spec n "M"); [contradiction|].
    destruct (String.eqb_spec n "MT"); [congruence|].
    destruct (String.eqb_spec n "Un"); [contradiction | reflexivity].
Qed.

(** X3: the grammar of [isValidVrsId]: an identifier is accepted
    exactly when it is "ga4gh:VA:", a non-empty chromosome without
    colon, a colon, and a non-empty rest without line terminator;
    nothing else about the rest (its length, its alphabet) is looked
    at. *)
Theorem isValidVrsId_grammar (id : string) :
  isValidVrsId id = true <->
  exists chrom rest,
    id = "ga4gh:VA:" +:+ chrom +:+ ":" +:+ rest /\
    chrom <> EmptyString /\ JsString.all Regex.notColon chrom = true /\
    rest <> EmptyString /\ JsString.all Regex.dot rest = true.
Proof.
  split.
  - intros H. apply parseVrsId_valid in H as (chrom & rest & ? & ? & ? & ? & ? & _).
    exists chrom, rest. auto.
  - intros (chrom & rest & -> & ? & ? & ? & ?). now apply isValidVrsId_intro.
Qed.

(** X4: parsing loses nothing: an identifier that [parseVrsId] accepts
    is "ga4gh:", the type, the chromosome and the digest it returns,
    joined by colons; so two identifiers with the same components are
    the same identifier. *)
Theorem parseVrsId_reassemble (id : string) (comp : components) :
  parseVrsId id = Ok comp ->
  id = "ga4gh:" +:+ type comp +:+ ":" +:+ chromosome comp +:+ ":" +:+ digest comp /\
  (forall id', parseVrsId id' = Ok comp -> id' = id).
Proof.
  assert (H : forall i, parseVrsId i = Ok comp ->
    i = "ga4gh:" +:+ type comp +:+ ":" +:+ chromosome comp +:+ ":" +:+ digest comp).
  { intros i Hi. rewrite parseVrsId_pattern in Hi.
    destruct (vrsPattern i) as [[m1 m2]|] eqn:E; [|discriminate].
    injection Hi as <-. apply vrsPattern_Some in E as (-> & _). reflexivity. }
  intros Hid. split; [now apply H|].
  intros id' Hid'. rewrite (H _ Hid), (H _ Hid'). reflexivity.
Qed.

Lemma parseVrsId_reassemble_witness :
  "ga4gh:VA:7:v9TQXvNOQeG1vNRVJCWlD_a1tRf_m2AP" =
  "ga4gh:" +:+ "VA" +:+ ":" +:+ "7" +:+ ":" +:+ "v9TQXvNOQeG1vNRVJCWlD_a1tRf_m2AP".
Proof.
  exact (proj1 (parseVrsId_reassemble
    "ga4gh:VA:7:v9TQXvNOQeG1vNRVJCWlD_a1tRf_m2AP"
    {| chromosome := "7"; digest := "v9TQXvNOQeG1vNRVJCWlD_a1tRf_m2AP"; type := "VA" |}
    eq_refl)).
Defined.

(** X5: the validator puts no bound on the digest: text without line
    terminator appended to an accepted identifier gives an accepted
    identifier with the same chromosome and the longer digest. *)
Theorem valid_identifier_extends (id suffix : string) (comp : components) :
  parseVrsId id = Ok comp ->
  JsString.all Regex.dot suffix = true ->
  isValidVrsId (id +:+ suffix) = true /\
  parseVrsId (id +:+ suffix) =
    Ok {| chromosome := chromosome comp; digest := digest comp +:+ suffix; type := "VA" |}.
Proof.
  intros Hp Hs. rewrite parseVrsId_pattern in Hp.
  destruct (vrsPattern id) as [[m1 m2]|] eqn:E; [|discriminate].
  injection Hp as <-. cbn [chromosome digest].
  apply vrsPattern_Some in E as (-> & Hc & Hcc & Hr & Hrr).
  assert (E : ("ga4gh:VA:" +:+ m1 +:+ ":" +:+ m2) +:+ suffix =
              "ga4gh:VA:" +:+ m1 +:+ ":" +:+ (m2 +:+ suffix)).
  { rewrite !append_assoc. reflexivity. }
  rewrite E.
  assert (Hne : m2 +:+ suffix <> EmptyString) by (destruct m2; [congruence | discriminate]).
  assert (Hall : JsString.all Regex.dot (m2 +:+ suffix) = true)
    by (rewrite all_append, Hrr, Hs; reflexivity).
  split; [apply isValidVrsId_intro | apply parseVrsId_intro]; assumption.
Qed.

Lemma valid_identifier_extends_witness :
  isValidVrsId ("ga4gh:VA:7:v9TQXvNOQeG1vNRVJCWlD_a1tRf_m2AP" +:+ " and more") = true.
Proof.
  exact (proj1 (valid_identifier_extends
    "ga4gh:VA:7:v9TQXvNOQeG1vNRVJCWlD_a1tRf_m2AP" " and more" _ eq_refl eq_refl)).
Defined.

(** X6: a table name is "variants_chr" followed by lowercase text:
    lowercasing it again changes nothing. *)
Theorem table_name_lowercase (id t : string) :
  getSqlTableForVariant id = Ok t ->
  JsString.startsWith "variants_chr" t = true /\
  JsString.toLowerCase t = t.
Proof.
  unfold getSqlTableForVariant, mbind, result_bind.
  destruct (getChromosomeFromVrsId id) as [chrom|e]; [|discriminate].
  intros [= <-]. split; [reflexivity|].
  change (JsString.toLowerCase ("variants_chr" +:+ JsString.toLowerCase chrom) =
          "variants_chr" +:+ JsString.toLowerCase chrom).
  rewrite toLowerCase_append, toLowerCase_idempotent. reflexivity.
Qed.

Lemma table_name_lowercase_witness :
  JsString.toLowerCase "variants_chrx" = "variants_chrx".
Proof.
  exact (proj2 (table_name_lowercase
    "ga4gh:VA:X:v9TQXvNOQeG1vNRVJCWlD_a1tRf_m2AP" "variants_chrx" eq_refl)).
Defined.

(** X7: routing looks at the chromosome only, and without regard to
    case: two accepted identifiers get the same table, and the same
    query text, exactly when their chromosomes agree after
    lowercasing. *)
Theorem routing_by_chromosome (id1 id2 c1 c2 : string) (q1 q2 : variantQuery) :
  getChromosomeFromVrsId id1 = Ok c1 ->
  getChromosomeFromVrsId id2 = Ok c2 ->
  buildVariantQuery id1 = Ok q1 ->
  buildVariantQuery id2 = Ok q2 ->
  (getSqlTableForVariant id1 = getSqlTableForVariant id2 <->
   JsString.toLowerCase c1 = JsString.toLowerCase c2) /\
  (query q1 = query q2 <-> JsString.toLowerCase c1 = JsString.toLowerCase c2).
Proof.
  intros H1 H2.
  unfold buildVariantQuery, getSqlTableForVariant, mbind, result_bind.
  rewrite H1, H2. intros [= <-] [= <-]. cbn [query].
  split.
  - split; [|now intros ->].
    intros [= E]. exact E.
  - split; [|now intros ->].
    set (pre := nl +:+ "    SELECT *" +:+ nl +:+ "    FROM public." +:+ "variants_chr").
    set (post := nl +:+ "    WHERE id = @vrsId" +:+ nl +:+
                 "    AND chromosome = @chromosome" +:+ nl +:+ "  ").
    change (pre +:+ JsString.toLowerCase c1 +:+ post =
            pre +:+ JsString.toLowerCase c2 +:+ post ->
            JsString.toLowerCase c1 = JsString.toLowerCase c2).
    intros E. apply append_inv_head in E. now apply append_inv_tail in E.
Qed.

Lemma routing_by_chromosome_witness :
  getSqlTableForVariant "ga4gh:VA:X:abc" = getSqlTableForVariant "ga4gh:VA:x:def".
Proof.
  destruct (buildVariantQuery "ga4gh:VA:X:abc") as [q1|] eqn:E1; [|discriminate].
  destruct (buildVariantQuery "ga4gh:VA:x:def") as [q2|] eqn:E2; [|discriminate].
  exact (proj2 (proj1 (routing_by_chromosome
    "ga4gh:VA:X:abc" "ga4gh:VA:x:def" "X" "x" q1 q2 eq_refl eq_refl E1 E2)) eq_refl).
Defined.

(** X8: every wildcard variant is routed to the one table
    "variants_chrspecial", whatever its chromosome (the fields holding
    no line terminator, so that the identifier is accepted). *)
Theorem wildcard_table (c : string) (p : position) (r a assembly : string) :
  r = "*" \/ a = "*" ->
  JsString.all Regex.dot (specialLabel (normalizeChromosome c) p r a) = true ->
  getChromosomeFromVrsId (generateVrsId c p r a assembly) = Ok "SPECIAL" /\
  getSqlTableForVariant (generateVrsId c p r a assembly) = Ok "variants_chrspecial".
Proof.
  intros H Hdot. rewrite (generateVrsId_special _ _ _ _ _ H).
  assert (Hp : getChromosomeFromVrsId
                 ("ga4gh:VA:SPECIAL:" +:+ specialLabel (normalizeChromosome c) p r a) =
               Ok "SPECIAL").
  { assert (Hq : parseVrsId
                     ("ga4gh:VA:SPECIAL:" +:+ specialLabel (normalizeChromosome c) p r a) =
                   Ok {| chromosome := "SPECIAL";
                         digest := specialLabel (normalizeChromosome c) p r a;
                         type := "VA" |}).
    { apply (parseVrsId_intro "SPECIAL" (specialLabel (normalizeChromosome c) p r a));
        auto using specialLabel_nonempty; discriminate. }
    unfold getChromosomeFromVrsId, mbind, result_bind. rewrite Hq. reflexivity. }
  split; [exact Hp|].
  unfold getSqlTableForVariant, mbind, result_bind. rewrite Hp. reflexivity.
Qed.

Lemma wildcard_table_witness :
  getSqlTableForVariant (generateVrsId "chr7" (PosNumber 55174772) "*" "T" defaultAssembly) =
  Ok "variants_chrspecial".
Proof.
  exact (proj2 (wildcard_table "chr7" (PosNumber 55174772) "*" "T" defaultAssembly
                  (or_introl eq_refl) eq_refl)).
Defined.

(** X9: the colons of the hashed data string are not escaped: moving a
    colon-separated piece from the end of the reference allele to the
    front of the alternate allele gives a different variant with the
    same identifier. *)
Theorem payload_delimiter_collision (c : string) (p : position) (x y z assembly : string) :
  x <> "*" -> z <> "*" ->
  x +:+ ":" +:+ y <> x /\
  generateVrsId c p (x +:+ ":" +:+ y) z assembly =
  generateVrsId c p x (y +:+ ":" +:+ z) assembly.
Proof.
  intros Hx Hz.
  assert (Hcolon : forall u v, u +:+ ":" +:+ v <> "*").
  { intros [|c0 [|c1 u]] v; simpl; discriminate. }
  split.
  - intros E. apply (f_equal String.length) in E.
    rewrite length_append in E. simpl in E. lia.
  - rewrite !generateVrsId_standard by auto.
    unfold payload. rewrite !append_assoc. reflexivity.
Qed.

Lemma payload_delimiter_collision_witness :
  generateVrsId "chr7" (PosNumber 100) ("A" +:+ ":" +:+ "C") "G" defaultAssembly =
  generateVrsId "chr7" (PosNumber 100) "A" ("C" +:+ ":" +:+ "G") defaultAssembly.
Proof.
  apply (payload_delimiter_collision "chr7" (PosNumber 100) "A" "C" "G" defaultAssembly);
    discriminate.
Defined.

(** X10: the dashes of the wildcard form are not escaped either: the
    reference "*" with the alternate x-* and the reference *-x with the
    alternate "*" are different variants with the same identifier. *)
Theorem special_delimiter_collision (c : string) (p : position) (x assembly : string) :
  "*" <> "*-" +:+ x /\
  generateVrsId c p "*" (x +:+ "-*") assembly =
  generateVrsId c p ("*-" +:+ x) "*" assembly.
Proof.
  split; [discriminate|].
  rewrite !generateVrsId_special by auto.
  unfold specialLabel. rewrite !append_assoc. reflexivity.
Qed.

(** * The database example *)

Section MockDatabaseFacts.
Context {A : Type}.
Implicit Types (db : MockDatabase.tables A) (t : string) (r : A).

Lemma lookup_app db db' t :
  MockDatabase.lookup t (db ++ db') =
  match MockDatabase.lookup t db with
  | Some rows => Some rows
  | None => MockDatabase.lookup t db'
  end.
Proof.
  induction db as [|[t0 rows0] db IH]; simpl; [reflexivity|].
  destruct (String.eqb t0 t); [reflexivity | exact IH].
Qed.

Lemma lookup_None_getTables db t :
  MockDatabase.lookup t db = None <-> ~ In t (MockDatabase.getTables db).
Proof.
  induction db as [|[t0 rows0] db IH]; simpl.
  - split; auto.
  - destruct (String.eqb_spec t0 t) as [->|Hne].
    + split; [discriminate | intros H; exfalso; auto].
    + rewrite IH. split; [intros H [E|E]; auto | intros H E; auto].
Qed.

Lemma lookup_ensureTable db t t' :
  MockDatabase.lookup t' (MockDatabase.ensureTable t db) =
  match MockDatabase.lookup t' db with
  | Some rows => Some rows
  | None => if String.eqb t t' then Some [] else None
  end.
Proof.
  unfold MockDatabase.ensureTable.
  destruct (MockDatabase.lookup t db) eqn:E.
  - destruct (MockDatabase.lookup t' db) eqn:E'; [reflexivity|].
    destruct (String.eqb_spec t t') as [->|]; [congruence | reflexivity].
  - rewrite lookup_app. simpl. reflexivity.
Qed.

Lemma lookup_push db t t' r :
  MockDatabase.lookup t' (MockDatabase.push t r db) =
  match MockDatabase.lookup t' db with
  | Some rows => Some (if String.eqb t t' then rows ++ [r] else rows)
  | None => None
  end.
Proof.
  induction db as [|[t0 rows0] db IH]; simpl; [reflexivity|].
  destruct (String.eqb_spec t0 t) as [->|Hne]; simpl.
  - destruct (String.eqb_spec t t') as [->|Hne'].
    + reflexivity.
    + destruct (MockDatabase.lookup t' db); reflexivity.
  - destruct (String.eqb_spec t0 t') as [->|Hne'].
    + destruct (String.eqb_spec t t'); [congruence | reflexivity].
    + exact IH.
Qed.

Lemma lookup_insert db t t' r :
  MockDatabase.lookup t' (MockDatabase.insert t r db) =
  if String.eqb t t'
  then Some (match MockDatabase.lookup t db with Some rows => rows | None => [] end ++ [r])
  else MockDatabase.lookup t' db.
Proof.
  unfold MockDatabase.insert. rewrite lookup_push, lookup_ensureTable.
  destruct (String.eqb_spec t t') as [->|Hne].
  - destruct (MockDatabase.lookup t' db); reflexivity.
  - destruct (MockDatabase.lookup t' db); reflexivity.
Qed.

Lemma getTables_push db t r :
  MockDatabase.getTables (MockDatabase.push t r db) = MockDatabase.getTables db.
Proof.
  induction db as [|[t0 rows0] db IH]; simpl; [reflexivity|].
  destruct (String.eqb t0 t); simpl; [reflexivity | now rewrite IH].
Qed.

Lemma getTables_ensureTable db t :
  MockDatabase.getTables (MockDatabase.ensureTable t db) =
  match MockDatabase.lookup t db with
  | Some _ => MockDatabase.getTables db
  | None => MockDatabase.getTables db ++ [t]
  end.
Proof.
  unfold MockDatabase.ensureTable, MockDatabase.getTables.
  destruct (MockDatabase.lookup t db); [reflexivity|].
  rewrite map_app. reflexivity.
Qed.

Lemma NoDup_ensureTable db t :
  NoDup (MockDatabase.getTables db) ->
  NoDup (MockDatabase.getTables (MockDatabase.ensureTable t db)).
Proof.
  intros H. rewrite getTables_ensureTable.
  destruct (MockDatabase.lookup t db) eqn:E; [assumption|].
  apply lookup_None_getTables in E.
  apply NoDup_app. split; [assumption|]. split.
  - intros x Hx Hin. apply list_elem_of_In in Hx.
    apply list_elem_of_singleton in Hin. subst. auto.
  - apply NoDup_singleton.
Qed.

End MockDatabaseFacts.


Lemma query_cases {A : Type} (t : string) (condition : A -> bool)
        (db : MockDatabase.tables A) :
  match MockDatabase.lookup t db with
  | None =>
      MockDatabase.query t condition db = ([], db ++ [(t, [])]) /\
      MockDatabase.getTables (snd (MockDatabase.query t condition db)) =
        MockDatabase.getTables db ++ [t]
  | Some rows =>
      MockDatabase.query t condition db = (List.filter condition rows, db)
  end.
Proof.
  unfold MockDatabase.query.
  pose proof (lookup_ensureTable db t t) as E.
  pose proof (getTables_ensureTable db t) as G.
  unfold MockDatabase.ensureTable in *.
  destruct (MockDatabase.lookup t db) as [rows|] eqn:L.
  - rewrite L. reflexivity.
  - rewrite E, String.eqb_refl. cbn [snd]. rewrite G. split; reflexivity.
Qed.


Section DatabaseExampleFacts.
Variable toISOString : nat -> string.

Lemma storeVariant_Ok (i : nat) (v : variant) (db db' : MockDatabase.tables row) :
  storeVariant toISOString i v db = (db', Ok tt) ->
  exists t chrom,
    getSqlTableForVariant (variantId v) = Ok t /\
    getChromosomeFromVrsId (variantId v) = Ok chrom /\
    db' = MockDatabase.insert t
            {| row_id := variantId v;
               row_chromosome := chrom;
               row_position := variantPosition v;
               row_reference_allele := referenceAllele v;
               row_alternate_allele := alternateAllele v;
               row_created_at := toISOString i |} db.
Proof.
  unfold storeVariant.
  destruct (getSqlTableForVariant (variantId v)) as [t|e]; [|discriminate].
  destruct (getChromosomeFromVrsId (variantId v)) as [chrom|e]; [|discriminate].
  intros [= <-]. exists t, chrom. auto.
Qed.

Lemma storeVariant_Throw (i : nat) (v : variant) (db db' : MockDatabase.tables row) e :
  storeVariant toISOString i v db = (db', Throw e) ->
  db' = db /\ isValidVrsId (variantId v) = false /\
  e = invalidIdentifierError (variantId v).
Proof.
  unfold storeVariant.
  destruct (getSqlTableForVariant (variantId v)) as [t|e'] eqn:Ht.
  - destruct (getChromosomeFromVrsId (variantId v)) as [chrom|e''] eqn:Hc; [discriminate|].
    apply getChromosomeFromVrsId_throw in Hc.
    apply getSqlTableForVariant_throw in Hc. congruence.
  - intros [= <- <-]. apply getSqlTableForVariant_throw in Ht.
    destruct (isValidVrsId (variantId v)) eqn:Hv.
    + apply parseVrsId_valid in Hv as (? & ? & _ & _ & _ & _ & _ & Hv). congruence.
    + rewrite (parseVrsId_invalid _ Hv) in Ht. injection Ht as <-. auto.
Qed.

Lemma storeVariant_valid (i : nat) (v : variant) (db : MockDatabase.tables row) :
  isValidVrsId (variantId v) = true ->
  exists db', storeVariant toISOString i v db = (db', Ok tt).
Proof.
  intros Hv. destruct (storeVariant toISOString i v db) as [db' [[]|e]] eqn:E.
  - eauto.
  - apply storeVariant_Throw in E as (_ & E & _). congruence.
Qed.

Lemma holds_insert_old db t t' r r' :
  holds db t' r' -> holds (MockDatabase.insert t r db) t' r'.
Proof.
  intros (rows & Hl & Hin). unfold holds. rewrite lookup_insert.
  destruct (String.eqb_spec t t') as [->|]; [|eauto].
  rewrite Hl. eexists. split; [reflexivity|]. apply in_or_app. auto.
Qed.

Lemma holds_insert_new db t r : holds (MockDatabase.insert t r db) t r.
Proof.
  unfold holds. rewrite lookup_insert, String.eqb_refl.
  eexists. split; [reflexivity|]. apply in_or_app. right. left. reflexivity.
Qed.

Lemma processVariantsFrom_holds i vs db db' res t r :
  processVariantsFrom toISOString i vs db = (db', res) ->
  holds db t r -> holds db' t r.
Proof.
  revert i db. induction vs as [|v vs IH]; intros i db; simpl.
  - intros [= <- _]. auto.
  - destruct (storeVariant toISOString i v db) as [db1 [[]|e]] eqn:E.
    + intros H Hh. apply (IH _ _ H).
      apply storeVariant_Ok in E as (t0 & c0 & _ & _ & ->).
      now apply holds_insert_old.
    + intros [= <- _]. apply storeVariant_Throw in E as (-> & _). auto.
Qed.

Lemma routed_insert db t r :
  routed db ->
  getSqlTableForVariant (row_id r) = Ok t ->
  getChromosomeFromVrsId (row_id r) = Ok (row_chromosome r) ->
  routed (MockDatabase.insert t r db).
Proof.
  intros [Hnd Hr] Ht Hc. split.
  - unfold MockDatabase.insert. rewrite getTables_push. now apply NoDup_ensureTable.
  - intros t' rows r'. rewrite lookup_insert.
    destruct (String.eqb_spec t t') as [->|]; [|apply Hr].
    intros [= <-] Hin. apply in_app_or in Hin as [Hin|[<-|[]]]; [|auto].
    destruct (MockDatabase.lookup t' db) as [rows0|] eqn:L; [|destruct Hin].
    exact (Hr _ _ _ L Hin).
Qed.

End DatabaseExampleFacts.

Lemma processVariantsFrom_routed (toISOString : nat -> string) (i : nat)
        (vs : list variant) (db : MockDatabase.tables row) :
  routed db -> routed (fst (processVariantsFrom toISOString i vs db)).
Proof.
  revert i db. induction vs as [|v vs IH]; intros i db Hr; simpl; [assumption|].
  destruct (storeVariant toISOString i v db) as [db1 [[]|e]] eqn:E.
  - apply IH. apply storeVariant_Ok in E as (t & c & Ht & Hc & ->).
    now apply routed_insert.
  - apply storeVariant_Throw in E as (-> & _). assumption.
Qed.

(** X13: [processVariants] keeps the database routed: whether it
    finishes or stops on an error, every record is in the table its
    identifier names, carries the chromosome of its identifier, and no
    table is listed twice. *)
Theorem processVariants_routed (toISOString : nat -> string) (i : nat)
        (vs : list variant) (db : MockDatabase.tables row) :
  routed db -> routed (fst (processVariantsFrom toISOString i vs db)).
Proof. apply processVariantsFrom_routed. Qed.

Lemma routed_empty : routed [].
Proof. split; [constructor | intros t rows r H; discriminate]. Qed.

Lemma processVariants_routed_witness :
  routed (fst (processVariantsFrom (fun _ => "2025-01-01T00:00:00.000Z") 0
                 [{| variantChromosome := "chr1"; variantPosition := 12345;
                     referenceAllele := "A"; alternateAllele := "G" |}] [])).
Proof. apply processVariants_routed, routed_empty. Defined.

(** X14: what [queryVariantByVrsId] returns is a stored record with the
    identifier that was asked for, found in the table the identifier
    names; a successful lookup does not change the database. *)
Theorem queryVariantByVrsId_sound (vrsId : string) (db : MockDatabase.tables row) (r : row) :
  fst (queryVariantByVrsId vrsId db) = Some r ->
  row_id r = vrsId /\
  snd (queryVariantByVrsId vrsId db) = db /\
  exists t, getSqlTableForVariant vrsId = Ok t /\ holds db t r.
Proof.
  unfold queryVariantByVrsId.
  destruct (parseVrsId vrsId) as [comp|e]; [|discriminate].
  destruct (getSqlTableForVariant vrsId) as [t|e]; [|discriminate].
  pose proof (query_cases t (fun record => String.eqb (row_id record) vrsId) db) as Q.
  destruct (MockDatabase.lookup t db) as [rows|] eqn:L.
  - rewrite Q.
    destruct (List.filter _ rows) as [|r0 rest] eqn:F; [discriminate|].
    cbn [fst snd]. intros [= ->].
    assert (Hin : In r (List.filter (fun record => String.eqb (row_id record) vrsId) rows))
      by (rewrite F; left; reflexivity).
    apply List.filter_In in Hin as [Hin Heq]. apply String.eqb_eq in Heq.
    split; [assumption|]. split; [reflexivity|].
    exists t. split; [reflexivity|]. exists rows. auto.
  - destruct Q as [Q _]. rewrite Q. discriminate.
Qed.

(** X15: a lookup that fails returns [null] and never throws: for an
    identifier the validator rejects the database is untouched; for an
    accepted identifier whose table does not exist, the lookup creates
    the empty table. *)
Theorem queryVariantByVrsId_miss (vrsId : string) (db : MockDatabase.tables row) :
  (isValidVrsId vrsId = false -> queryVariantByVrsId vrsId db = (None, db)) /\
  (forall t, getSqlTableForVariant vrsId = Ok t -> MockDatabase.lookup t db = None ->
     queryVariantByVrsId vrsId db = (None, db ++ [(t, [])])).
Proof.
  unfold queryVariantByVrsId. split.
  - intros H. rewrite (parseVrsId_invalid _ H). reflexivity.
  - intros t Ht L. rewrite Ht.
    destruct (parseVrsId vrsId) as [comp|e] eqn:E.
    + pose proof (query_cases t (fun record => String.eqb (row_id record) vrsId) db) as Q.
      rewrite L in Q. destruct Q as [Q _]. rewrite Q. reflexivity.
    + apply getSqlTableForVariant_throw in E. congruence.
Qed.

Lemma queryVariantByVrsId_miss_witness :
  queryVariantByVrsId "invalid-vrs-id" [] = (None, []) /\
  queryVariantByVrsId "ga4gh:VA:7:v9TQXvNOQeG1vNRVJCWlD_a1tRf_m2AP" [] =
    (None, [("variants_chr7", [])]).
Proof.
  split.
  - exact (proj1 (queryVariantByVrsId_miss "invalid-vrs-id" []) eq_refl).
  - exact (proj2 (queryVariantByVrsId_miss
                    "ga4gh:VA:7:v9TQXvNOQeG1vNRVJCWlD_a1tRf_m2AP" [])
                 "variants_chr7" eq_refl eq_refl).
Defined.

(** X16: store, then look up: after [processVariants] has finished
    without error on a routed database, looking up the identifier of
    any of the processed variants returns a record with that
    identifier and with the chromosome the identifier carries, and
    leaves the database unchanged. *)
Theorem stored_variant_found (toISOString : nat -> string) (vs : list variant)
        (db db' : MockDatabase.tables row) (v : variant) :
  routed db ->
  processVariants toISOString vs db = (db', Ok tt) ->
  In v vs ->
  exists r,
    queryVariantByVrsId (variantId v) db' = (Some r, db') /\
    row_id r = variantId v /\
    getChromosomeFromVrsId (variantId v) = Ok (row_chromosome r).
Proof.
  intros Hr Hp Hin.
  assert (Hr' : routed db').
  { pose proof (processVariantsFrom_routed toISOString 0 vs db Hr) as H.
    unfold processVariants in Hp. rewrite Hp in H. exact H. }
  assert (Hh : exists t r0, getSqlTableForVariant (variantId v) = Ok t /\
                            holds db' t r0 /\ row_id r0 = variantId v).
  { unfold processVariants in Hp. clear Hr Hr'. revert db Hp. generalize 0%nat as i.
    induction vs as [|w vs IH]; intros i db Hp; [destruct Hin|].
    simpl in Hp.
    destruct (storeVariant toISOString i w db) as [db1 [[]|e]] eqn:E; [|discriminate].
    destruct Hin as [->|Hin].
    - apply storeVariant_Ok in E as (t & c & Ht & Hc & ->).
      exists t. eexists. split; [exact Ht|]. split.
      + eapply processVariantsFrom_holds; [exact Hp | apply holds_insert_new].
      + reflexivity.
    - exact (IH Hin _ _ Hp). }
  destruct Hh as (t & r0 & Ht & (rows & L & Hin0) & Hid).
  unfold queryVariantByVrsId. rewrite Ht.
  destruct (parseVrsId (variantId v)) as [comp|e] eqn:E;
    [|apply getSqlTableForVariant_throw in E; congruence].
  pose proof (query_cases t
    (fun record => String.eqb (row_id record) (variantId v)) db') as Q.
  rewrite L in Q. rewrite Q.
  destruct (List.filter _ rows) as [|r rest] eqn:F.
  - exfalso.
    assert (H : In r0 (List.filter (fun record => String.eqb (row_id record) (variantId v)) rows)).
    { apply List.filter_In. split; [assumption|]. now apply String.eqb_eq. }
    rewrite F in H. destruct H.
  - exists r. split; [reflexivity|].
    assert (H : In r (List.filter (fun record => String.eqb (row_id record) (variantId v)) rows))
      by (rewrite F; left; reflexivity).
    apply List.filter_In in H as [H Heq]. apply String.eqb_eq in Heq.
    split; [assumption|].
    destruct Hr' as [_ Hr']. destruct (Hr' _ _ _ L H) as [_ Hc]. congruence.
Qed.

Lemma stored_variant_found_witness :
  exists r,
    row_id r = "ga4gh:VA:17:0WNx7PqRUIPudU4jNEi-rXwzzFfToSyM" /\
    row_chromosome r = "17".
Proof.
  pose (v1 := {| variantChromosome := "chr7"; variantPosition := 55174772;
                 referenceAllele := "GGAATTAAGAGAAGC"; alternateAllele := EmptyString |}).
  pose (v2 := {| variantChromosome := "chr17"; variantPosition := 31350290;
                 referenceAllele := "C"; alternateAllele := "T" |}).
  pose (clock := fun _ : nat => "2025-01-01T00:00:00.000Z").
  destruct (stored_variant_found clock [v1; v2] []
              (fst (processVariants clock [v1; v2] [])) v2 routed_empty)
    as (r & _ & Hid & Hc).
  - vm_compute. reflexivity.
  - right. left. reflexivity.
  - exists r. split.
    + rewrite Hid. vm_compute. reflexivity.
    + assert (E : getChromosomeFromVrsId (variantId v2) = Ok "17")
        by (vm_compute; reflexivity).
      rewrite E in Hc. injection Hc as <-. reflexivity.
Defined.

(** X17: [processVariants] stops at the first variant whose identifier
    the validator rejects: it throws the invalid-identifier error for
    that identifier, the variants before it stay stored, and the ones
    after it are not looked at. *)
Theorem processVariants_stops (toISOString : nat -> string) (i : nat)
        (vs1 vs2 : list variant) (v : variant) (db : MockDatabase.tables row) :
  Forall (fun w => isValidVrsId (variantId w) = true) vs1 ->
  isValidVrsId (variantId v) = false ->
  snd (processVariantsFrom toISOString i vs1 db) = Ok tt /\
  processVariantsFrom toISOString i (vs1 ++ v :: vs2) db =
    (fst (processVariantsFrom toISOString i vs1 db),
     Throw (invalidIdentifierError (variantId v))).
Proof.
  intros Hall Hv. revert i db.
  induction Hall as [|w vs1 Hw Hall IH]; intros i db; simpl.
  - split; [reflexivity|].
    destruct (storeVariant toISOString i v db) as [db1 [[]|e]] eqn:E.
    + apply storeVariant_Ok in E as (t & c & Ht & _).
      pose proof (parseVrsId_invalid _ Hv) as Hp.
      apply getSqlTableForVariant_throw in Hp. congruence.
    + apply storeVariant_Throw in E as (-> & _ & ->). reflexivity.
  - destruct (storeVariant_valid toISOString i w db Hw) as [db1 E]. rewrite E.
    apply IH.
Qed.

Lemma processVariants_stops_witness :
  snd (processVariantsFrom (fun _ => "2025-01-01T00:00:00.000Z") 0
         [{| variantChromosome := "chr1"; variantPosition := 12345;
             referenceAllele := "A"; alternateAllele := "G" |};
          {| variantChromosome := "chr"; variantPosition := 1;
             referenceAllele := "A"; alternateAllele := "G" |};
          {| variantChromosome := "chr2"; variantPosition := 23456;
             referenceAllele := "C"; alternateAllele := "T" |}] []) =
  Throw (invalidIdentifierError
           (variantId {| variantChromosome := "chr"; variantPosition := 1;
                         referenceAllele := "A"; alternateAllele := "G" |})).
Proof.
  pose (clock := fun _ : nat => "2025-01-01T00:00:00.000Z").
  pose (v1 := {| variantChromosome := "chr1"; variantPosition := 12345;
                 referenceAllele := "A"; alternateAllele := "G" |}).
  pose (bad := {| variantChromosome := "chr"; variantPosition := 1;
                  referenceAllele := "A"; alternateAllele := "G" |}).
  pose (v2 := {| variantChromosome := "chr2"; variantPosition := 23456;
                 referenceAllele := "C"; alternateAllele := "T" |}).
  destruct (processVariants_stops clock 0 [v1] [v2] bad []) as [_ H].
  - constructor; [vm_compute; reflexivity | constructor].
  - vm_compute. reflexivity.
  - change (snd (processVariantsFrom clock 0 ([v1] ++ bad :: [v2]) []) =
            Throw (invalidIdentifierError (variantId bad))).
    rewrite H. reflexivity.
Defined.

Lemma queryVariantByVrsId_sound_witness :
  row_id {| row_id := "ga4gh:VA:7:v9TQXvNOQeG1vNRVJCWlD_a1tRf_m2AP";
            row_chromosome := "7"; row_position := 55174772;
            row_reference_allele := "GGAATTAAGAGAAGC";
            row_alternate_allele := EmptyString;
            row_created_at := "2025-01-01T00:00:00.000Z" |} =
  "ga4gh:VA:7:v9TQXvNOQeG1vNRVJCWlD_a1tRf_m2AP".
Proof.
  exact (proj1 (queryVariantByVrsId_sound
    "ga4gh:VA:7:v9TQXvNOQeG1vNRVJCWlD_a1tRf_m2AP"
    [("variants_chr7",
      [{| row_id := "ga4gh:VA:7:v9TQXvNOQeG1vNRVJCWlD_a1tRf_m2AP";
          row_chromosome := "7"; row_position := 55174772;
          row_reference_allele := "GGAATTAAGAGAAGC";
          row_alternate_allele := EmptyString;
          row_created_at := "2025-01-01T00:00:00.000Z" |}])]
    _ eq_refl)).
Defined.

(** * The form example *)

(** X18: after a submission the form shows either a result or an error,
    never both and never neither; it shows a result exactly when the
    chromosome is non-empty, the position is not 0, at least one allele
    is non-empty and the generated identifier passes the validator. *)
Theorem handleSubmit_outcome (v : variant) :
  (formError (handleSubmit v) = None <-> formResult (handleSubmit v) <> None) /\
  (formError (handleSubmit v) = None <->
   variantChromosome v <> EmptyString /\
   variantPosition v <> 0 /\
   (referenceAllele v <> EmptyString \/ alternateAllele v <> EmptyString) /\
   isValidVrsId (variantId v) = true).
Proof.
  unfold handleSubmit.
  destruct (String.eqb_spec (variantChromosome v) EmptyString) as [Hc|Hc].
  { cbn. split; (split; [discriminate | intros H; exfalso; tauto]). }
  destruct (Z.eqb_spec (variantPosition v) 0) as [Hp|Hp].
  { cbn. split; (split; [discriminate | intros H; exfalso; tauto]). }
  destruct (String.eqb_spec (referenceAllele v) EmptyString) as [Hr|Hr];
    [destruct (String.eqb_spec (alternateAllele v) EmptyString) as [Ha|Ha]|]; cbn [andb].
  { cbn. split; (split; [discriminate | intros H; exfalso; tauto]). }
  all: destruct (isValidVrsId (variantId v)) eqn:Hv;
    [ destruct (parseVrsId_valid _ Hv) as (c0 & r0 & _ & _ & _ & _ & _ & E); rewrite E; cbn;
      split; (split; [intros _; try discriminate; auto 6 | reflexivity])
    | rewrite (parseVrsId_invalid _ Hv); cbn;
      split; (split; [discriminate | intros H; exfalso; try tauto; try congruence;
                                     destruct H as (_ & _ & _ & H); discriminate]) ].
Qed.

(** X19: for a variant without wildcard whose canonical chromosome is
    non-empty and colon-free, with a position other than 0 and at
    least one non-empty allele, the form shows the generated
    identifier, the canonical chromosome, the type "VA" and the
    32-character digest, and no error. *)
Theorem handleSubmit_success (v : variant) :
  variantPosition v <> 0 ->
  referenceAllele v <> EmptyString \/ alternateAllele v <> EmptyString ->
  referenceAllele v <> "*" -> alternateAllele v <> "*" ->
  normalizeChromosome (variantChromosome v) <> EmptyString ->
  JsString.all Regex.notColon (normalizeChromosome (variantChromosome v)) = true ->
  exists d,
    String.length d = 32%nat /\
    handleSubmit v =
    {| formResult :=
         Some ("ga4gh:VA:" +:+ normalizeChromosome (variantChromosome v) +:+ ":" +:+ d,
               {| chromosome := normalizeChromosome (variantChromosome v);
                  digest := d; type := "VA" |});
       formError := None |}.
Proof.
  intros Hp Hra Hr Ha Hn Hcolon.
  exists (urlSafeDigest (payload (normalizeChromosome (variantChromosome v))
                                 (PosNumber (variantPosition v))
                                 (referenceAllele v) (alternateAllele v))).
  split; [apply urlSafeDigest_spec|].
  unfold handleSubmit.
  destruct (String.eqb_spec (variantChromosome v) EmptyString) as [Hc|Hc].
  { rewrite Hc in Hn. exfalso. apply Hn. reflexivity. }
  destruct (Z.eqb_spec (variantPosition v) 0) as [|_]; [contradiction|].
  assert (String.eqb (referenceAllele v) EmptyString &&
          String.eqb (alternateAllele v) EmptyString = false) as ->.
  { destruct (String.eqb_spec (referenceAllele v) EmptyString);
      destruct (String.eqb_spec (alternateAllele v) EmptyString); try reflexivity.
    exfalso. tauto. }
  unfold variantId, generate. rewrite generateVrsId_standard by assumption.
  rewrite parseVrsId_intro by auto using urlSafeDigest_nonempty, urlSafeDigest_dot.
  reflexivity.
Qed.

Lemma handleSubmit_success_witness :
  exists d,
    String.length d = 32%nat /\
    formError (handleSubmit {| variantChromosome := "chr7"; variantPosition := 55174772;
                               referenceAllele := "GGAATTAAGAGAAGC";
                               alternateAllele := EmptyString |}) = None.
Proof.
  pose (v := {| variantChromosome := "chr7"; variantPosition := 55174772;
                referenceAllele := "GGAATTAAGAGAAGC"; alternateAllele := EmptyString |}).
  assert (H1 : variantPosition v <> 0) by (cbn; lia).
  assert (H2 : referenceAllele v <> EmptyString \/ alternateAllele v <> EmptyString)
    by (left; cbn; discriminate).
  assert (H3 : referenceAllele v <> "*") by (cbn; discriminate).
  assert (H4 : alternateAllele v <> "*") by (cbn; discriminate).
  assert (H5 : normalizeChromosome (variantChromosome v) <> EmptyString)
    by (vm_compute; discriminate).
  assert (H6 : JsString.all Regex.notColon (normalizeChromosome (variantChromosome v)) = true)
    by (vm_compute; reflexivity).
  destruct (handleSubmit_success v H1 H2 H3 H4 H5 H6) as (d & Hd & H).
  exists d. split; [exact Hd|]. fold v. rewrite H. reflexivity.
Defined.

(** X20: the required-field checks do not protect the parser: a
    non-empty chromosome whose canonical form is empty passes them, and
    the form then reports the identifier it has just generated as
    invalid. *)
Theorem handleSubmit_rejects_own_identifier (v : variant) :
  variantChromosome v <> EmptyString ->
  normalizeChromosome (variantChromosome v) = EmptyString ->
  variantPosition v <> 0 ->
  referenceAllele v <> EmptyString \/ alternateAllele v <> EmptyString ->
  referenceAllele v <> "*" -> alternateAllele v <> "*" ->
  variantChromosome v = "chr" /\
  handleSubmit v = failed ("Invalid VRS ID: " +:+ variantId v).
Proof.
  intros Hc Hn Hp Hra Hr Ha. split.
  - unfold normalizeChromosome in Hn.
    destruct (JsString.startsWith "chr" (variantChromosome v)) eqn:Hs.
    + apply startsWith_inv in Hs as [t Ht]. rewrite Ht in Hn |- *.
      change (JsString.substring 3 ("chr" +:+ t)) with t in Hn.
      destruct (String.eqb_spec t "M"); [discriminate|].
      destruct (String.eqb_spec t "MT"); [discriminate|].
      destruct (String.eqb_spec t "Un"); [discriminate|].
      rewrite Hn. reflexivity.
    + destruct (String.eqb_spec (variantChromosome v) "M"); [discriminate|].
      destruct (String.eqb_spec (variantChromosome v) "MT"); [discriminate|].
      destruct (String.eqb_spec (variantChromosome v) "Un"); [discriminate|].
      contradiction.
  - unfold handleSubmit.
    destruct (String.eqb_spec (variantChromosome v) EmptyString); [contradiction|].
    destruct (Z.eqb_spec (variantPosition v) 0); [contradiction|].
    assert (String.eqb (referenceAllele v) EmptyString &&
            String.eqb (alternateAllele v) EmptyString = false) as ->.
    { destruct (String.eqb_spec (referenceAllele v) EmptyString);
        destruct (String.eqb_spec (alternateAllele v) EmptyString); try reflexivity.
      exfalso. tauto. }
    assert (Hv : isValidVrsId (variantId v) = false).
    { unfold variantId, generate. rewrite generateVrsId_standard, Hn by assumption.
      reflexivity. }
    rewrite (parseVrsId_invalid _ Hv). reflexivity.
Qed.

Lemma handleSubmit_rejects_own_identifier_witness :
  formResult (handleSubmit {| variantChromosome := "chr"; variantPosition := 12345;
                              referenceAllele := "A"; alternateAllele := "G" |}) = None.
Proof.
  pose (v := {| variantChromosome := "chr"; variantPosition := 12345;
                referenceAllele := "A"; alternateAllele := "G" |}).
  assert (H0 : variantChromosome v <> EmptyString) by (cbn; discriminate).
  assert (H1 : normalizeChromosome (variantChromosome v) = EmptyString)
    by (vm_compute; reflexivity).
  assert (H2 : variantPosition v <> 0) by (cbn; lia).
  assert (H3 : referenceAllele v <> EmptyString \/ alternateAllele v <> EmptyString)
    by (left; cbn; discriminate).
  assert (H4 : referenceAllele v <> "*") by (cbn; discriminate).
  assert (H5 : alternateAllele v <> "*") by (cbn; discriminate).
  destruct (handleSubmit_rejects_own_identifier v H0 H1 H2 H3 H4 H5) as [_ H].
  fold v. rewrite H. reflexivity.
Defined.
